(** * Flatfile listener: record validator and purchase-order egress

  A shallow embedding of [src/index.ts]: the [recordHook("customers")]
  handler that normalises the [author] field, and the [job:completed]
  handler that derives purchase-order lines from the inventory sheet,
  inserts them in the order sheet and mails the sheet as CSV.

  JavaScript numbers are IEEE 754 binary64 values ([spec_float] with
  [prec = 53], [emax = 1024]); strings are sequences of UTF-16 code
  units; objects used as maps are [gmap]s keyed by property name. *)

From Stdlib Require Import ZArith NArith List Bool Lia.
From Stdlib Require Import Floats.SpecFloat.
From stdpp Require Import base gmap strings list.

Local Open Scope Z_scope.

(** ** JavaScript values *)

Module JS.

(** *** Numbers: binary64 *)

Definition number : Type := spec_float.

Definition prec : Z := 53.
Definition emax : Z := 1024.

Definition NaN : number := S754_nan.
Definition Infinity (negative : bool) : number := S754_infinity negative.

(** Numeric literal with an integer value, correctly rounded. *)
Definition num (z : Z) : number := binary_normalize prec emax z 0 false.

(** [x - y] on numbers. *)
Definition sub (x y : number) : number := SFsub prec emax x y.

(** [x < y] and [x > y] on numbers: false as soon as one side is NaN. *)
Definition lt (x y : number) : bool := SFltb x y.
Definition gt (x y : number) : bool := SFltb y x.

Definition isNaN (x : number) : bool :=
  match x with S754_nan => true | _ => false end.

Definition is_zero (negative : bool) (x : number) : bool :=
  match x with S754_zero s => Bool.eqb s negative | _ => false end.

(** [Math.max(...args)]: NaN if any argument is NaN; otherwise the
    running maximum starting from -Infinity, where +0 beats -0. *)
Definition max_step (highest n : number) : number :=
  if is_zero false n && is_zero true highest then n
  else if gt n highest then n else highest.

Definition Math_max (args : list number) : number :=
  if existsb isNaN args then NaN
  else fold_left max_step args (Infinity true).

(** The mathematical integers among the numbers. *)
Definition isInteger (x : number) : bool :=
  match x with
  | S754_zero _ => true
  | S754_finite _ m e =>
      if 0 <=? e then true else Z.pos m mod 2 ^ (- e) =? 0
  | _ => false
  end.

(** Strings: UTF-16 code units. *)
Abbreviation jsstring := (list N).

(** An ASCII literal as a JavaScript string. *)
Definition lit (s : string) : jsstring :=
  map Ascii.N_of_ascii (String.list_ascii_of_string s).

Inductive jsval : Type :=
| JUndefined
| JNull
| JBool (b : bool)
| JNum (n : number)
| JStr (s : jsstring).

(** What the engine supplies and this repository does not: the
    conversions between strings and numbers, and the Unicode general
    category L used by [\p{L}]. *)
Class Engine : Type := {
  StringToNumber : jsstring -> number;
  NumberToString : number -> jsstring;
  unicode_L : N -> bool
}.

Section Coercions.
Context {E : Engine}.

Definition ToNumber (v : jsval) : number :=
  match v with
  | JUndefined => NaN
  | JNull => num 0
  | JBool true => num 1
  | JBool false => num 0
  | JNum n => n
  | JStr s => StringToNumber s
  end.

Definition ToString (v : jsval) : jsstring :=
  match v with
  | JUndefined => lit "undefined"
  | JNull => lit "null"
  | JBool true => lit "true"
  | JBool false => lit "false"
  | JNum n => NumberToString n
  | JStr s => s
  end.
End Coercions.

(** Thrown exceptions and rejected promises. *)
Inductive exn : Type :=
| TypeError (msg : string)
| Rejected (source : string).

Inductive result (A : Type) : Type :=
| Ok (a : A)
| Throw (e : exn).
Arguments Ok {A} a.
Arguments Throw {A} e.

End JS.
Import JS.

(** ** Regular expressions over code points

    The [u] flag makes the pattern match code points, so a surrogate
    pair counts as one character.  Matching is by derivatives: the
    pattern is anchored at both ends, so [test] succeeds when the
    derivative by the whole input accepts the empty string. *)

Module Regex.

Definition is_high_surrogate (c : N) : bool := ((55296 <=? c) && (c <=? 56319))%N.
Definition is_low_surrogate (c : N) : bool := ((56320 <=? c) && (c <=? 57343))%N.

Fixpoint codePoints (s : jsstring) : list N :=
  match s with
  | hi :: ((lo :: rest) as tl) =>
      if is_high_surrogate hi && is_low_surrogate lo
      then (65536 + (hi - 55296) * 1024 + (lo - 56320))%N :: codePoints rest
      else hi :: codePoints tl
  | _ => s
  end.

Inductive regex : Type :=
| Fail
| Eps
| Class (p : N -> bool)
| Seq (r1 r2 : regex)
| Alt (r1 r2 : regex)
| Star (r : regex).

(** [r+] *)
Definition Plus (r : regex) : regex := Seq r (Star r).

Fixpoint nullable (r : regex) : bool :=
  match r with
  | Fail => false
  | Eps => true
  | Class _ => false
  | Seq r1 r2 => nullable r1 && nullable r2
  | Alt r1 r2 => nullable r1 || nullable r2
  | Star _ => true
  end.

Fixpoint deriv (c : N) (r : regex) : regex :=
  match r with
  | Fail => Fail
  | Eps => Fail
  | Class p => if p c then Eps else Fail
  | Seq r1 r2 =>
      if nullable r1
      then Alt (Seq (deriv c r1) r2) (deriv c r2)
      else Seq (deriv c r1) r2
  | Alt r1 r2 => Alt (deriv c r1) (deriv c r2)
  | Star r1 => Seq (deriv c r1) (Star r1)
  end.

Definition derivs (r : regex) (cs : list N) : regex :=
  fold_left (fun r c => deriv c r) cs r.

(** [/^r$/u.test(s)] *)
Definition test (r : regex) (s : jsstring) : bool :=
  nullable (derivs r (codePoints s)).

(** The language of a pattern, for reasoning about [test]. *)
Inductive matches : regex -> list N -> Prop :=
| m_eps : matches Eps []
| m_class p c : p c = true -> matches (Class p) [c]
| m_seq r1 r2 s1 s2 : matches r1 s1 -> matches r2 s2 -> matches (Seq r1 r2) (s1 ++ s2)
| m_alt_l r1 r2 s : matches r1 s -> matches (Alt r1 r2) s
| m_alt_r r1 r2 s : matches r2 s -> matches (Alt r1 r2) s
| m_star_nil r : matches (Star r) []
| m_star_cons r s1 s2 : matches r s1 -> matches (Star r) s2 -> matches (Star r) (s1 ++ s2).

(** [\s]: WhiteSpace and LineTerminator code points. *)
Definition white_space (c : N) : bool :=
  ((c =? 9) || (c =? 10) || (c =? 11) || (c =? 12) || (c =? 13) || (c =? 32)
   || (c =? 160) || (c =? 5760) || ((8192 <=? c) && (c <=? 8202))
   || (c =? 8232) || (c =? 8233) || (c =? 8239) || (c =? 8287)
   || (c =? 12288) || (c =? 65279))%N.

Definition comma (c : N) : bool := (c =? 44)%N.

End Regex.

(** ** A state-and-exception monad for the handlers *)

Definition M (S A : Type) : Type := S -> result A * S.

Definition ret {S A : Type} (a : A) : M S A := fun s => (Ok a, s).

Definition bind {S A B : Type} (c : M S A) (k : A -> M S B) : M S B :=
  fun s =>
    match c s with
    | (Ok a, s') => k a s'
    | (Throw e, s') => (Throw e, s')
    end.

(** A computation that does not touch the state. *)
Definition lift {S A : Type} (r : result A) : M S A := fun s => (r, s).

Notation "'do' x <- c ; k" := (bind c (fun x => k))
  (at level 10, x name, c at level 100, k at level 200).
Notation "'perform' c ; k" := (bind c (fun _ => k))
  (at level 10, c at level 100, k at level 200).

(** ** The record validator: [recordHook("customers", ...)] *)

Module Validator.
Import Regex.

(** The record object handed to the hook: its field values and the
    comments attached so far (field, message).  [get], [set] and
    [addComment] are the record-hook plugin's: each first checks that
    the field exists; [get] answers [null] for a field that does not,
    and [set] and [addComment] then leave the record as it is. *)
Record FlatfileRecord : Type := {
  data : gmap string jsval;
  info : list (string * string)
}.

Definition get (field : string) : M FlatfileRecord jsval :=
  fun r =>
    match data r !! field with
    | Some v => (Ok v, r)
    | None => (Ok JNull, r)
    end.

Definition set (field : string) (v : jsval) : M FlatfileRecord unit :=
  fun r =>
    match data r !! field with
    | Some _ => (Ok tt, {| data := <[field := v]> (data r); info := info r |})
    | None => (Ok tt, r)
    end.

Definition addComment (field message : string) : M FlatfileRecord unit :=
  fun r =>
    match data r !! field with
    | Some _ => (Ok tt, {| data := data r; info := info r ++ [(field, message)] |})
    | None => (Ok tt, r)
    end.

(** [s.split(" ")]: the pieces between the occurrences of U+0020. *)
Fixpoint split_space (s : jsstring) : list jsstring :=
  match s with
  | [] => [[]]
  | c :: rest =>
      if (c =? 32)%N then [] :: split_space rest
      else match split_space rest with
           | piece :: pieces => (c :: piece) :: pieces
           | [] => [[c]]
           end
  end.

(** [v.split(" ")] for an arbitrary value. *)
Definition split (v : jsval) : result (list jsstring) :=
  match v with
  | JStr s => Ok (split_space s)
  | JUndefined | JNull =>
      Throw (TypeError "Cannot read properties of null or undefined (reading 'split')")
  | JBool _ | JNum _ => Throw (TypeError "split is not a function")
  end.

(** [a[i]] for an array of strings. *)
Definition index (a : list jsstring) (i : nat) : jsval :=
  match nth_error a i with
  | Some s => JStr s
  | None => JUndefined
  end.

(** What the handler hands back to the plugin. *)
Inductive returned : Type :=
| ReturnsRecord
| ReturnsUndefined.

Section Hook.
Context {E : Engine}.

Definition name_char (c : N) : bool :=
  (unicode_L c || (c =? 39) || (c =? 45))%N.

(** [/^\s*[\p{L}'-]+\s*,\s*[\p{L}'-]+\s*$/u] *)
Definition pattern : regex :=
  Seq (Star (Class white_space))
   (Seq (Plus (Class name_char))
     (Seq (Star (Class white_space))
       (Seq (Class comma)
         (Seq (Star (Class white_space))
           (Seq (Plus (Class name_char))
                (Star (Class white_space))))))).

Definition validateNameFormat (name : jsval) : bool :=
  test pattern (ToString name).

Definition hook : M FlatfileRecord returned :=
  do author <- get "author";
  if negb (validateNameFormat author) then
    do nameSplit <- lift (split author);
    perform set "author"
          (JStr (ToString (index nameSplit 1) ++ lit ", " ++ ToString (index nameSplit 0)));
    perform addComment "author" "Author name was updated for vendor";
    ret ReturnsRecord
  else ret ReturnsUndefined.

End Hook.

End Validator.

(** ** The egress handler: [listener.on("job:completed", ...)] *)

Module Egress.

(** A cell of a sheet record: [{value, valid, messages}]. *)
Record cell : Type := {
  value : jsval;
  valid : option bool;
  messages : list string
}.

(** A record as [api.records.get] returns it; the handler only reads
    [values], the object from field key to cell. *)
Record item : Type := { values : gmap string cell }.

Record sheet : Type := { id : string }.
Record workbook : Type := { sheets : list sheet }.

Record transport_options : Type := {
  service : string;
  auth_user : jsval;
  auth_pass : jsval
}.

Record attachment : Type := { filename : string; content : jsval }.

Record mail_options : Type := {
  from : jsval;
  to : string;
  subject : string;
  text : string;
  attachments : list attachment
}.

(** The calls the handler makes on its collaborators, in the order it
    makes them. *)
Inductive call : Type :=
| Secrets (key : string)
| WorkbooksGet (workbookId : string)
| RecordsGet (sheetId : string)
| RecordsInsert (sheetId : string) (records : list (gmap string cell))
| GetRecordsAsCsv (sheetId : string)
| CreateTransport (options : transport_options)
| SendMail (transporter : transport_options) (mail : mail_options).

Definition is_mail_call (c : call) : bool :=
  match c with
  | CreateTransport _ | SendMail _ _ => true
  | _ => false
  end.

Definition is_insert (c : call) : bool :=
  match c with
  | RecordsInsert _ _ => true
  | _ => false
  end.

(** The platform and the mail relay, as the handler sees them.  Every
    call may reject and may change the state [W] of the outside world.
    The secret store is read by name; [absent_secret] is the answer of
    [event.secrets] for a name the store does not hold. *)
Class Platform (W : Type) : Type := {
  secret_store : W -> gmap string jsval;
  absent_secret : string -> result jsval;
  workbooks_get : string -> W -> result workbook * W;
  records_get : string -> W -> result (list item) * W;
  records_insert : string -> list (gmap string cell) -> W -> result unit * W;
  sheets_getRecordsAsCsv : string -> W -> result jsval * W;
  sendMail : transport_options -> mail_options -> W -> result unit * W
}.

Section Handler.
Context {E : Engine}.

(** The callback of [currentInventory.data.records.map]. *)
Definition stockOrder (stockValue : jsval) : number :=
  Math_max [sub (num 3) (ToNumber stockValue); num 0].

Definition purchaseLine (it : item) : result (gmap string cell) :=
  match values it !! "stock" with
  | None => Throw (TypeError "Cannot read properties of undefined (reading 'value')")
  | Some stock =>
      let stockValue := value stock in
      let purchase :=
        {| value := JNum (stockOrder stockValue); valid := Some true; messages := [] |} in
      let values' := <["purchase" := purchase]> (values it) in
      Ok (delete "stock" values')
  end.

(** [records.map(f)] for a callback that may throw. *)
Fixpoint map_result {A B : Type} (f : A -> result B) (l : list A) : result (list B) :=
  match l with
  | [] => Ok []
  | a :: rest =>
      match f a with
      | Throw e => Throw e
      | Ok b =>
          match map_result f rest with
          | Throw e => Throw e
          | Ok bs => Ok (b :: bs)
          end
      end
  end.

(** [records.filter(p)] for a predicate that may throw. *)
Fixpoint filter_result {A : Type} (p : A -> result bool) (l : list A) : result (list A) :=
  match l with
  | [] => Ok []
  | a :: rest =>
      match p a with
      | Throw e => Throw e
      | Ok keep =>
          match filter_result p rest with
          | Throw e => Throw e
          | Ok kept => Ok (if keep then a :: kept else kept)
          end
      end
  end.

Definition purchaseInventory (records : list item) : result (list (gmap string cell)) :=
  map_result purchaseLine records.

(** The callback of [purchaseInventory.filter]. *)
Definition purchasePositive (fields : gmap string cell) : result bool :=
  match fields !! "purchase" with
  | None => Throw (TypeError "Cannot read properties of undefined (reading 'value')")
  | Some purchase => Ok (gt (ToNumber (value purchase)) (num 0))
  end.

Definition purchaseOrder (lines : list (gmap string cell)) : result (list (gmap string cell)) :=
  filter_result purchasePositive lines.

Context {W : Type} {P : Platform W}.

(** One call on a collaborator: noted in the log, then answered. *)
Definition invoke {A : Type} (c : call) (answer : W -> result A * W) : M (W * list call) A :=
  fun s =>
    let '(r, w') := answer (fst s) in
    (r, (w', snd s ++ [c])).

(** [event.secrets(key)]: the stored value, or the listener's answer
    for a name that is not in the store. *)
Definition secret_answer (w : W) (key : string) : result jsval :=
  match secret_store w !! key with
  | Some v => Ok v
  | None => absent_secret key
  end.

Definition event_secrets (key : string) : M (W * list call) jsval :=
  invoke (Secrets key) (fun w => (secret_answer w key, w)).

(** [data.sheets[i].id] *)
Definition sheet_id_at (data : workbook) (i : nat) : result string :=
  match nth_error (sheets data) i with
  | Some s => Ok (id s)
  | None => Throw (TypeError "Cannot read properties of undefined (reading 'id')")
  end.

Definition createTransport (options : transport_options) : M (W * list call) transport_options :=
  invoke (CreateTransport options) (fun w => (Ok options, w)).

Definition job_completed (workbookId : string) : M (W * list call) unit :=
  do email <- event_secrets "email";
  do password <- event_secrets "password";
  do data <- invoke (WorkbooksGet workbookId) (workbooks_get workbookId);
  do inventorySheet <- lift (sheet_id_at data 0);
  do orderSheet <- lift (sheet_id_at data 1);
  do currentInventory <- invoke (RecordsGet inventorySheet) (records_get inventorySheet);
  do lines <- lift (purchaseInventory currentInventory);
  do order <- lift (purchaseOrder lines);
  perform invoke (RecordsInsert orderSheet order) (records_insert orderSheet order);
  do csv <- invoke (GetRecordsAsCsv orderSheet) (sheets_getRecordsAsCsv orderSheet);
  do transporter <-
    createTransport {| service := "Gmail"; auth_user := email; auth_pass := password |};
  let mailOptions :=
    {| from := email;
       to := "warehouse@books.com";
       subject := "Purchase Order";
       text := "Attached";
       attachments := [ {| filename := "orders.csv"; content := csv |} ] |} in
  invoke (SendMail transporter mailOptions) (sendMail transporter mailOptions).

End Handler.

End Egress.

(** ** Definitions used to state the properties *)

Module Props.
Import Regex Egress.

(** The canonical binary64 form of [(-1)^s * b], for [b] below [2^53]. *)
Definition canon (s : bool) (b : positive) : number :=
  S754_finite s (Pos.shiftl_nat b (Z.to_nat (prec - Z.pos (digits2_pos b))))
              (Z.pos (digits2_pos b) - prec).

(** The reorder quantity as the specification words it, on the integers:
    [max(reorder_target - stock, 0)] with [reorder_target = 3]. *)
Definition reorder_target : Z := 3.
Definition spec_quantity (stock : Z) : Z := Z.max (reorder_target - stock) 0.

(** Integers [z] for which both [z] and [3 - z] fit the 53-bit mantissa,
    so that [3 - z] is computed without rounding. *)
Definition exact_range (z : Z) : Prop :=
  Z.abs z < 2 ^ prec /\ Z.abs (reorder_target - z) < 2 ^ prec.

(** [Number.isSafeInteger]: the integers of magnitude at most
    [Number.MAX_SAFE_INTEGER], that is [2^53 - 1]. *)
Definition MAX_SAFE_INTEGER : Z := 2 ^ prec - 1.
Definition safe_integer (z : Z) : Prop := Z.abs z <= MAX_SAFE_INTEGER.

(** A non-negative integer: an integer that is not below zero. *)
Definition nonneg_integer (x : number) : bool :=
  isInteger x && negb (lt x (num 0)).

(** A cell that carries a validation error: marked invalid, or with a
    message attached. *)
Definition flagged (c : cell) : bool :=
  match valid c, messages c with
  | Some false, _ => true
  | _, _ :: _ => true
  | _, _ => false
  end.

(** The outcome of the map callback reports a validation error for the
    record: the derived line's [purchase] cell is flagged.  A thrown
    [TypeError] is not a validation error of the record. *)
Definition validation_error (r : result (gmap string cell)) : bool :=
  match r with
  | Ok line =>
      match line !! "purchase" with
      | Some c => flagged c
      | None => false
      end
  | Throw _ => false
  end.

(** [purchase.value] of the derived line, when there is one. *)
Definition purchase_value (r : result (gmap string cell)) : option jsval :=
  match r with
  | Ok line => value <$> line !! "purchase"
  | Throw _ => None
  end.

(** The [stock] cell holds something else than a number. *)
Definition non_numeric (v : jsval) : bool :=
  match v with
  | JNum n => isNaN n
  | _ => true
  end.

Definition stock_absent_or_non_numeric (it : item) : bool :=
  match values it !! "stock" with
  | None => true
  | Some stock => non_numeric (value stock)
  end.

(** The filter's predicate on a derived line, as a boolean. *)
Definition positive_line {E : Engine} (line : gmap string cell) : bool :=
  match line !! "purchase" with
  | Some purchase => gt (ToNumber (value purchase)) (num 0)
  | None => false
  end.

(** The value [record.get("author")] yields. *)
Definition author_of (r : Validator.FlatfileRecord) : jsval :=
  match Validator.data r !! "author" with
  | Some v => v
  | None => JNull
  end.

(** The well-formed author as the specification words it: optional
    white space, a surname of letters, apostrophes and hyphens, a comma,
    optional white space, a given name of the same characters, optional
    white space. *)
Definition well_formed {E : Engine} (s : jsstring) : Prop :=
  exists ws1 surname ws2 given ws3 : list N,
    codePoints s = ws1 ++ surname ++ [44%N] ++ ws2 ++ given ++ ws3
    /\ forallb white_space ws1 = true
    /\ forallb white_space ws2 = true
    /\ forallb white_space ws3 = true
    /\ surname <> [] /\ forallb Validator.name_char surname = true
    /\ given <> [] /\ forallb Validator.name_char given = true.

Definition is_string (v : jsval) : bool :=
  match v with JStr _ => true | _ => false end.

Definition no_space (s : jsstring) : Prop := ~ In 32%N s.

End Props.

(** ** A concrete engine and platform, to run the model on examples *)

Module Sample.
Import Egress.

(** Category L restricted to Latin-1. *)
Definition latin1_letter (c : N) : bool :=
  (((65 <=? c) && (c <=? 90)) || ((97 <=? c) && (c <=? 122))
   || (c =? 170) || (c =? 181) || (c =? 186)
   || ((192 <=? c) && (c <=? 214)) || ((216 <=? c) && (c <=? 246))
   || ((248 <=? c) && (c <=? 255)))%N.

(** The value of a non-empty string of decimal digits. *)
Fixpoint digits_value (acc : Z) (s : jsstring) : option Z :=
  match s with
  | [] => Some acc
  | c :: rest =>
      if ((48 <=? c) && (c <=? 57))%N
      then digits_value (10 * acc + (Z.of_N c - 48)) rest
      else None
  end.

(** An engine for the examples: letters of Latin-1, strings of decimal
    digits, and the printing of NaN.  The examples use no other string to
    number or number to string conversion. *)
#[export] Instance engine : Engine := {|
  StringToNumber := fun s =>
    match s with
    | [] => num 0
    | _ => match digits_value 0 s with Some z => num z | None => NaN end
    end;
  NumberToString := fun _ => lit "NaN";
  unicode_L := latin1_letter
|}.

(** A world with a secret store, one workbook, its sheets' records and
    the mail sent so far. *)
Record world : Type := {
  store : gmap string jsval;
  books : gmap string workbook;
  tables : gmap string (list item);
  outbox : list mail_options
}.

#[export] Instance platform : Platform world := {|
  secret_store := store;
  absent_secret := fun key => Throw (Rejected "secret not found");
  workbooks_get := fun wid w =>
    match books w !! wid with
    | Some b => (Ok b, w)
    | None => (Throw (Rejected "workbooks.get"), w)
    end;
  records_get := fun sid w =>
    match tables w !! sid with
    | Some rs => (Ok rs, w)
    | None => (Throw (Rejected "records.get"), w)
    end;
  records_insert := fun sid rows w =>
    match tables w !! sid with
    | Some rs =>
        (Ok tt, {| store := store w; books := books w;
                   tables := <[sid := rs ++ map Build_item rows]> (tables w);
                   outbox := outbox w |})
    | None => (Throw (Rejected "records.insert"), w)
    end;
  sheets_getRecordsAsCsv := fun sid w =>
    match tables w !! sid with
    | Some rs => (Ok (JStr (lit "csv")), w)
    | None => (Throw (Rejected "sheets.getRecordsAsCsv"), w)
    end;
  sendMail := fun _ mail w =>
    (Ok tt, {| store := store w; books := books w; tables := tables w;
               outbox := outbox w ++ [mail] |})
|}.

Definition stock_cell (v : jsval) : cell :=
  {| value := v; valid := Some true; messages := [] |}.

Definition title_cell (s : string) : cell :=
  {| value := JStr (lit s); valid := Some true; messages := [] |}.

Definition book_item (title : string) (stock : jsval) : item :=
  {| values := {[ "title" := title_cell title; "stock" := stock_cell stock ]} |}.

Definition inventory : list item :=
  [ book_item "Dune" (JNum (num 1));
    book_item "Emma" (JNum (num 5));
    book_item "Ulysses" (JNum (num 3)) ].

(** The lines derived from [inventory]. *)
Definition purchase_cell (z : Z) : cell :=
  {| value := JNum (num z); valid := Some true; messages := [] |}.

Definition order_line (title : string) (z : Z) : gmap string cell :=
  {[ "title" := title_cell title; "purchase" := purchase_cell z ]}.

Definition inventory_lines : list (gmap string cell) :=
  [ order_line "Dune" 2; order_line "Emma" 0; order_line "Ulysses" 0 ].

Definition the_workbook : workbook :=
  {| sheets := [ {| id := "inventory" |}; {| id := "orders" |} ] |}.

Definition credentials : gmap string jsval :=
  {[ "email" := JStr (lit "shop@books.com"); "password" := JStr (lit "hunter2") ]}.

Definition good_world : world :=
  {| store := credentials;
     books := {[ "wb" := the_workbook ]};
     tables := {[ "inventory" := inventory; "orders" := [] ]};
     outbox := [] |}.

(** The same world with the [password] secret missing. *)
Definition no_password_world : world :=
  {| store := {[ "email" := JStr (lit "shop@books.com") ]};
     books := books good_world;
     tables := tables good_world;
     outbox := [] |}.

Definition customer (author : jsval) : Validator.FlatfileRecord :=
  {| Validator.data := {[ "author" := author ]}; Validator.info := [] |}.

End Sample.

(** ** The automap file-name pattern: [matchFilename] *)

Module Automap.
Import Regex.

(** LineTerminator code units: what [.] does not match. *)
Definition line_terminator (c : N) : bool :=
  ((c =? 10) || (c =? 13) || (c =? 8232) || (c =? 8233))%N.

(** [.] in a pattern without the [s] flag. *)
Definition dot (c : N) : bool := negb (line_terminator c).

(** A run of literal characters. *)
Fixpoint Lit (s : list N) : regex :=
  match s with
  | [] => Eps
  | c :: rest => Seq (Class (N.eqb c)) (Lit rest)
  end.

(** [/^r$/.test(s)] for a pattern without the [u] flag: the input is
    matched code unit by code unit. *)
Definition test_units (r : regex) (s : jsstring) : bool :=
  nullable (derivs r s).

(** [/^.*inventory\.xlsx$/] *)
Definition matchFilename : regex :=
  Seq (Star (Class dot)) (Lit (lit "inventory.xlsx")).

End Automap.

(** ** Further definitions used to state properties *)

Module Shape.
Import Regex Egress.

(** The code points the author pattern accepts, piece by piece. *)
Definition accepted {E : Engine} (cs : list N) : Prop :=
  exists ws1 surname ws2 ws3 given ws4 : list N,
    cs = ws1 ++ surname ++ ws2 ++ [44%N] ++ ws3 ++ given ++ ws4
    /\ forallb white_space ws1 = true
    /\ surname <> [] /\ forallb Validator.name_char surname = true
    /\ forallb white_space ws2 = true
    /\ forallb white_space ws3 = true
    /\ given <> [] /\ forallb Validator.name_char given = true
    /\ forallb white_space ws4 = true.

(** The place of a call in the handler's source order. *)
Definition stage (c : call) : nat :=
  match c with
  | Secrets key => if String.eqb key "email" then 0 else 1
  | WorkbooksGet _ => 2
  | RecordsGet _ => 3
  | RecordsInsert _ _ => 4
  | GetRecordsAsCsv _ => 5
  | CreateTransport _ => 6
  | SendMail _ _ => 7
  end%nat.

Definition is_ok {A : Type} (r : result A) : bool :=
  match r with Ok _ => true | Throw _ => false end.

(** The mail the handler composes from the [email] secret and the CSV. *)
Definition purchase_order_mail (email csv : jsval) : mail_options :=
  {| from := email;
     to := "warehouse@books.com";
     subject := "Purchase Order";
     text := "Attached";
     attachments := [ {| filename := "orders.csv"; content := csv |} ] |}.

Definition gmail (email password : jsval) : transport_options :=
  {| service := "Gmail"; auth_user := email; auth_pass := password |}.

End Shape.

(** ** More sample worlds *)

Module Scenario.
Import Egress.

(** A workbook with a single sheet. *)
Definition one_sheet_world : Sample.world :=
  {| Sample.store := Sample.credentials;
     Sample.books := {[ "wb" := {| sheets := [ {| id := "inventory" |} ] |} ]};
     Sample.tables := {[ "inventory" := Sample.inventory ]};
     Sample.outbox := [] |}.

(** An inventory whose second record has no [stock] cell. *)
Definition title_only (title : string) : item :=
  {| values := {[ "title" := Sample.title_cell title ]} |}.

Definition gappy_inventory : list item :=
  [ Sample.book_item "Dune" (JNum (num 1)); title_only "Emma" ].

Definition gappy_world : Sample.world :=
  {| Sample.store := Sample.credentials;
     Sample.books := {[ "wb" := Sample.the_workbook ]};
     Sample.tables := {[ "inventory" := gappy_inventory; "orders" := [] ]};
     Sample.outbox := [] |}.

(** An inventory with nothing to reorder. *)
Definition full_inventory : list item :=
  [ Sample.book_item "Emma" (JNum (num 5)); Sample.book_item "Ulysses" (JNum (num 3)) ].

Definition full_world : Sample.world :=
  {| Sample.store := Sample.credentials;
     Sample.books := {[ "wb" := Sample.the_workbook ]};
     Sample.tables := {[ "inventory" := full_inventory; "orders" := [] ]};
     Sample.outbox := [] |}.

(** A world whose workbook names an order sheet that has no table, so
    that the insert is rejected. *)
Definition no_orders_world : Sample.world :=
  {| Sample.store := Sample.credentials;
     Sample.books := {[ "wb" := Sample.the_workbook ]};
     Sample.tables := {[ "inventory" := Sample.inventory ]};
     Sample.outbox := [] |}.

(** The sample platform with a CSV export that always rejects. *)
Definition export_down : Platform Sample.world :=
  {| secret_store := Sample.store;
     absent_secret := fun key => Throw (Rejected "secret not found");
     workbooks_get := workbooks_get (Platform := Sample.platform);
     records_get := records_get (Platform := Sample.platform);
     records_insert := records_insert (Platform := Sample.platform);
     sheets_getRecordsAsCsv := fun sid w => (Throw (Rejected "sheets.getRecordsAsCsv"), w);
     sendMail := sendMail (Platform := Sample.platform) |}.

End Scenario.

(** One step of a run: reduce the binds and pairs in sight. *)
Ltac step := cbv beta iota zeta; cbn [fst snd].

(** Unfold the egress handler down to its calls. *)
Ltac open_handler :=
  unfold Egress.job_completed, bind, Egress.event_secrets, Egress.createTransport,
    Egress.invoke, lift, Egress.sheet_id_at;
  step.

(** * Properties *)

Import Regex Validator Egress Props.

(** ** Binary64 arithmetic on integers

    Rounding is the identity on a value that fits the mantissa, so the
    subtraction of two integers is exact as long as the operands and the
    difference stay below [2^53] in magnitude. *)

Section Binary64.

Lemma iter_pos_nat {A : Type} (f : A -> A) (p : positive) (x : A) :
  SpecFloat.iter_pos f p x = Nat.iter (Pos.to_nat p) f x.
Proof.
  revert x. induction p as [p IH | p IH |]; intros x; cbn [SpecFloat.iter_pos].
  - rewrite !IH, Pos2Nat.inj_xI.
    replace (S (2 * Pos.to_nat p)) with (Pos.to_nat p + S (Pos.to_nat p))%nat by lia.
    now rewrite Nat.iter_add, Nat.iter_succ_r.
  - rewrite !IH, Pos2Nat.inj_xO.
    replace (2 * Pos.to_nat p)%nat with (Pos.to_nat p + Pos.to_nat p)%nat by lia.
    now rewrite Nat.iter_add.
  - reflexivity.
Qed.

Lemma shiftl_nat_Z (m : positive) (n : nat) :
  Z.pos (Pos.shiftl_nat m n) = Z.pos m * 2 ^ Z.of_nat n.
Proof.
  induction n as [| n IH].
  - simpl. lia.
  - rewrite Nat2Z.inj_succ, Z.pow_succ_r by lia.
    change (Pos.shiftl_nat m (S n)) with ((Pos.shiftl_nat m n)~0)%positive.
    rewrite Pos2Z.inj_xO, IH. ring.
Qed.

Lemma shiftl_nat_add (m : positive) (a b : nat) :
  Pos.shiftl_nat (Pos.shiftl_nat m a) b = Pos.shiftl_nat m (a + b).
Proof.
  apply Pos2Z.inj. rewrite !shiftl_nat_Z, Nat2Z.inj_add, Z.pow_add_r by lia. ring.
Qed.

Lemma digits2_shiftl_nat (m : positive) (n : nat) :
  Z.pos (digits2_pos (Pos.shiftl_nat m n)) = Z.pos (digits2_pos m) + Z.of_nat n.
Proof.
  induction n as [| n IH].
  - simpl. lia.
  - change (Pos.shiftl_nat m (S n)) with ((Pos.shiftl_nat m n)~0)%positive.
    simpl digits2_pos. rewrite Pos2Z.inj_succ, IH. lia.
Qed.

Lemma iter_xO_shiftl_nat (m d : positive) :
  Pos.iter xO m d = Pos.shiftl_nat m (Pos.to_nat d).
Proof. now rewrite Pos2Nat.inj_iter. Qed.

Lemma shr_exact (q : positive) (n : nat) :
  Nat.iter n shr_1 {| shr_m := Z.pos (Pos.shiftl_nat q n); shr_r := false; shr_s := false |}
  = {| shr_m := Z.pos q; shr_r := false; shr_s := false |}.
Proof.
  induction n as [| n IH].
  - reflexivity.
  - rewrite Nat.iter_succ_r.
    change (Pos.shiftl_nat q (S n)) with ((Pos.shiftl_nat q n)~0)%positive.
    simpl shr_1. exact IH.
Qed.

Lemma shr_fexp_canonical (m : positive) (e : Z) :
  fexp prec emax (Z.pos (digits2_pos m) + e) = e ->
  shr_fexp prec emax (Z.pos m) e loc_Exact
  = ({| shr_m := Z.pos m; shr_r := false; shr_s := false |}, e).
Proof.
  intros Hc. unfold shr_fexp. simpl Zdigits2. rewrite Hc, Z.sub_diag. reflexivity.
Qed.

Lemma binary_round_aux_canonical (s : bool) (m : positive) (e : Z) :
  fexp prec emax (Z.pos (digits2_pos m) + e) = e ->
  e <= emax - prec ->
  binary_round_aux prec emax s (Z.pos m) e loc_Exact = S754_finite s m e.
Proof.
  intros Hc Hb. unfold binary_round_aux.
  rewrite (shr_fexp_canonical m e Hc).
  cbn [shr_m loc_of_shr_record round_nearest_even].
  rewrite (shr_fexp_canonical m e Hc). cbn [shr_m].
  apply Z.leb_le in Hb. now rewrite Hb.
Qed.

(** Rounding a mantissa with [n] spare low zero bits. *)
Lemma binary_round_shr (s : bool) (q : positive) (n : nat) (e : Z) :
  fexp prec emax (Z.pos (digits2_pos q) + (e + Z.of_nat n)) = e + Z.of_nat n ->
  e + Z.of_nat n <= emax - prec ->
  binary_round prec emax s (Pos.shiftl_nat q n) e = S754_finite s q (e + Z.of_nat n).
Proof.
  intros Hc Hb.
  assert (Hf : fexp prec emax (Z.pos (digits2_pos (Pos.shiftl_nat q n)) + e) = e + Z.of_nat n).
  { rewrite digits2_shiftl_nat.
    replace (Z.pos (digits2_pos q) + Z.of_nat n + e)
      with (Z.pos (digits2_pos q) + (e + Z.of_nat n)) by lia.
    exact Hc. }
  unfold binary_round. rewrite Hf.
  assert (Ha : shl_align (Pos.shiftl_nat q n) e (e + Z.of_nat n) = (Pos.shiftl_nat q n, e)).
  { unfold shl_align. replace (e + Z.of_nat n - e) with (Z.of_nat n) by lia.
    destruct n; reflexivity. }
  rewrite Ha. unfold binary_round_aux.
  assert (Hs : shr_fexp prec emax (Z.pos (Pos.shiftl_nat q n)) e loc_Exact
               = ({| shr_m := Z.pos q; shr_r := false; shr_s := false |}, e + Z.of_nat n)).
  { unfold shr_fexp. simpl Zdigits2. rewrite Hf.
    replace (e + Z.of_nat n - e) with (Z.of_nat n) by lia.
    destruct n as [| n].
    - simpl. f_equal. lia.
    - unfold shr. change (Z.of_nat (S n)) with (Z.pos (Pos.of_succ_nat n)).
      cbn [shr_record_of_loc]. cbv iota.
      now rewrite iter_pos_nat, SuccNat2Pos.id_succ, shr_exact. }
  rewrite Hs. cbn [shr_m loc_of_shr_record round_nearest_even].
  rewrite (shr_fexp_canonical q _ Hc). cbn [shr_m].
  apply Z.leb_le in Hb. now rewrite Hb.
Qed.

(** Rounding a mantissa that has to be widened by [n] bits. *)
Lemma binary_round_shl (s : bool) (m : positive) (n : nat) (e : Z) :
  fexp prec emax (Z.pos (digits2_pos m) + e) = e - Z.of_nat n ->
  e - Z.of_nat n <= emax - prec ->
  binary_round prec emax s m e = S754_finite s (Pos.shiftl_nat m n) (e - Z.of_nat n).
Proof.
  intros Hc Hb. unfold binary_round. rewrite Hc.
  assert (Ha : shl_align m e (e - Z.of_nat n) = (Pos.shiftl_nat m n, e - Z.of_nat n)).
  { unfold shl_align. replace (e - Z.of_nat n - e) with (- Z.of_nat n) by lia.
    destruct n as [| n].
    - simpl. f_equal. lia.
    - change (- Z.of_nat (S n)) with (Z.neg (Pos.of_succ_nat n)). cbv iota.
      now rewrite iter_xO_shiftl_nat, SuccNat2Pos.id_succ. }
  rewrite Ha. apply binary_round_aux_canonical; [| exact Hb].
  rewrite digits2_shiftl_nat.
  replace (Z.pos (digits2_pos m) + Z.of_nat n + (e - Z.of_nat n))
    with (Z.pos (digits2_pos m) + e) by lia.
  exact Hc.
Qed.

Lemma binary_round_exact (s : bool) (b : positive) (j : nat) (e : Z) :
  Z.pos (digits2_pos b) <= prec ->
  e + Z.of_nat j = 0 ->
  binary_round prec emax s (Pos.shiftl_nat b j) e = canon s b.
Proof.
  intros Hd He. unfold canon.
  set (d := Z.pos (digits2_pos b)) in *.
  assert (Hd0 : 0 < d) by (unfold d; lia).
  destruct (Z.le_gt_cases (prec - d) (Z.of_nat j)) as [Hle | Hgt].
  - (* spare bits: shift right *)
    replace j with (Z.to_nat (prec - d) + (j - Z.to_nat (prec - d)))%nat by lia.
    rewrite <- shiftl_nat_add.
    replace (d - prec) with (e + Z.of_nat (j - Z.to_nat (prec - d))) by lia.
    apply binary_round_shr.
    + rewrite digits2_shiftl_nat. fold d. unfold fexp, emin, prec, emax in *. lia.
    + unfold prec, emax in *. lia.
  - replace (Z.to_nat (prec - d)) with (j + (Z.to_nat (prec - d) - j))%nat by lia.
    rewrite <- shiftl_nat_add.
    replace (d - prec) with (e - Z.of_nat (Z.to_nat (prec - d) - j)) by lia.
    apply binary_round_shl.
    + rewrite digits2_shiftl_nat. fold d. unfold fexp, emin, prec, emax in *. lia.
    + unfold prec, emax in *. lia.
Qed.

Lemma digits2_lower (b : positive) :
  2 ^ (Z.pos (digits2_pos b) - 1) <= Z.pos b.
Proof.
  induction b as [b IH | b IH |]; cbn [digits2_pos].
  - rewrite Pos2Z.inj_succ. replace (Z.succ (Z.pos (digits2_pos b)) - 1)
      with (Z.succ (Z.pos (digits2_pos b) - 1)) by lia.
    rewrite Z.pow_succ_r by lia. lia.
  - rewrite Pos2Z.inj_succ. replace (Z.succ (Z.pos (digits2_pos b)) - 1)
      with (Z.succ (Z.pos (digits2_pos b) - 1)) by lia.
    rewrite Z.pow_succ_r by lia. lia.
  - reflexivity.
Qed.

Lemma digits2_bound (b : positive) (n : Z) :
  0 <= n -> Z.pos b < 2 ^ n -> Z.pos (digits2_pos b) <= n.
Proof.
  intros Hn Hb.
  destruct (Z.le_gt_cases (Z.pos (digits2_pos b)) n) as [Hle | Hgt]; [exact Hle |].
  exfalso. pose proof (digits2_lower b) as Hlow.
  assert (Hmono : 2 ^ n <= 2 ^ (Z.pos (digits2_pos b) - 1))
    by (apply Z.pow_le_mono_r; lia).
  lia.
Qed.

Lemma num_pos (b : positive) :
  Z.pos b < 2 ^ prec -> num (Z.pos b) = canon false b.
Proof.
  intros Hb. unfold num, binary_normalize.
  apply (binary_round_exact false b 0 0); [apply digits2_bound; [unfold prec; lia | assumption] | reflexivity].
Qed.

Lemma num_neg (b : positive) :
  Z.pos b < 2 ^ prec -> num (Z.neg b) = canon true b.
Proof.
  intros Hb. unfold num, binary_normalize.
  apply (binary_round_exact true b 0 0); [apply digits2_bound; [unfold prec; lia | assumption] | reflexivity].
Qed.

Lemma normalize_shift (w : Z) (k : nat) :
  Z.abs w < 2 ^ prec ->
  binary_normalize prec emax (w * 2 ^ Z.of_nat k) (- Z.of_nat k) false = num w.
Proof.
  intros Hw. destruct w as [| b | b].
  - reflexivity.
  - rewrite <- shiftl_nat_Z, num_pos by exact Hw. unfold binary_normalize.
    apply binary_round_exact; [apply digits2_bound; [unfold prec; lia | assumption] | lia].
  - change (Z.neg b) with (- Z.pos b) at 1.
    rewrite Z.mul_opp_l, <- shiftl_nat_Z, num_neg by exact Hw.
    change (- Z.pos (Pos.shiftl_nat b k)) with (Z.neg (Pos.shiftl_nat b k)).
    unfold binary_normalize.
    apply binary_round_exact; [apply digits2_bound; [unfold prec; lia | assumption] | lia].
Qed.

Lemma shl_align_fst (m : positive) (e ez : Z) :
  ez <= e -> Z.pos (fst (shl_align m e ez)) = Z.pos m * 2 ^ (e - ez).
Proof.
  intros Hle. unfold shl_align. destruct (ez - e) as [| d | d] eqn:Hd.
  - replace (e - ez) with 0 by lia. simpl fst. lia.
  - lia.
  - simpl fst. rewrite iter_xO_shiftl_nat, shiftl_nat_Z, positive_nat_Z.
    f_equal. f_equal. lia.
Qed.

Lemma sub_canon (sa sb : bool) (a b : positive) :
  Z.pos a < 2 ^ prec -> Z.pos b < 2 ^ prec ->
  Z.abs (cond_Zopp sa (Z.pos a) - cond_Zopp sb (Z.pos b)) < 2 ^ prec ->
  sub (canon sa a) (canon sb b) = num (cond_Zopp sa (Z.pos a) - cond_Zopp sb (Z.pos b)).
Proof.
  intros Ha Hb Hw.
  assert (Hp : 0 <= prec) by (unfold prec; lia).
  pose proof (digits2_bound a prec Hp Ha) as Hda. pose proof (digits2_bound b prec Hp Hb) as Hdb.
  unfold sub, canon, SFsub.
  set (da := Z.pos (digits2_pos a)) in *. set (db := Z.pos (digits2_pos b)) in *.
  set (ez := Z.min (da - prec) (db - prec)).
  rewrite !shl_align_fst by (unfold ez; lia).
  rewrite !shiftl_nat_Z, !Z2Nat.id by lia.
  rewrite <- !Z.mul_assoc, <- !Z.pow_add_r by (unfold ez; lia).
  replace (prec - da + (da - prec - ez)) with (Z.of_nat (Z.to_nat (- ez))) by (unfold ez; lia).
  replace (prec - db + (db - prec - ez)) with (Z.of_nat (Z.to_nat (- ez))) by (unfold ez; lia).
  replace ez with (- Z.of_nat (Z.to_nat (- ez))) at 3 by (unfold ez; lia).
  rewrite <- (normalize_shift _ (Z.to_nat (- ez)) Hw).
  f_equal. destruct sa, sb; unfold cond_Zopp; ring.
Qed.

Lemma sub_num (x y : Z) :
  Z.abs x < 2 ^ prec -> Z.abs y < 2 ^ prec -> Z.abs (x - y) < 2 ^ prec ->
  sub (num x) (num y) = num (x - y).
Proof.
  intros Hx Hy Hw.
  destruct x as [| a | a], y as [| b | b].
  - reflexivity.
  - change (0 - Z.pos b) with (Z.neg b). rewrite num_pos, num_neg by exact Hy. reflexivity.
  - change (0 - Z.neg b) with (Z.pos b). rewrite num_pos, num_neg by exact Hy. reflexivity.
  - change (Z.pos a - 0) with (Z.pos a). rewrite num_pos by exact Hx. reflexivity.
  - rewrite (num_pos a Hx), (num_pos b Hy). exact (sub_canon false false a b Hx Hy Hw).
  - rewrite (num_pos a Hx), (num_neg b Hy). exact (sub_canon false true a b Hx Hy Hw).
  - change (Z.neg a - 0) with (Z.neg a). rewrite num_neg by exact Hx. reflexivity.
  - rewrite (num_neg a Hx), (num_pos b Hy). exact (sub_canon true false a b Hx Hy Hw).
  - rewrite (num_neg a Hx), (num_neg b Hy). exact (sub_canon true true a b Hx Hy Hw).
Qed.

(** Rounding never produces NaN. *)
Lemma shr_nonneg (mrs : shr_record) (e n : Z) :
  0 <= shr_m mrs -> 0 <= shr_m (fst (shr mrs e n)).
Proof.
  intros Hm. destruct n as [| p | p]; cbn [shr fst]; try exact Hm.
  rewrite iter_pos_nat. induction (Pos.to_nat p) as [| k IH]; [exact Hm |].
  rewrite Nat.iter_succ.
  destruct (Nat.iter k shr_1 mrs) as [m r t]. cbn [shr_m] in IH.
  destruct m as [| [q | q |] | q]; cbn; lia.
Qed.

Lemma shr_fexp_nonneg (m e : Z) (l : location) :
  0 <= m -> 0 <= shr_m (fst (shr_fexp prec emax m e l)).
Proof.
  intros Hm. unfold shr_fexp. apply shr_nonneg.
  destruct l as [| []]; exact Hm.
Qed.

Lemma round_nearest_even_nonneg (m : Z) (l : location) :
  0 <= m -> 0 <= round_nearest_even m l.
Proof.
  intros Hm. destruct l as [| []]; cbn [round_nearest_even]; try lia.
  destruct (Z.even m); lia.
Qed.

Lemma binary_round_aux_not_nan (s : bool) (m e : Z) (l : location) :
  0 <= m -> isNaN (binary_round_aux prec emax s m e l) = false.
Proof.
  intros Hm. unfold binary_round_aux.
  pose proof (shr_fexp_nonneg m e l Hm) as H1.
  destruct (shr_fexp prec emax m e l) as [mrs1 e1]. cbn [fst] in H1.
  pose proof (shr_fexp_nonneg _ e1 loc_Exact
                (round_nearest_even_nonneg _ (loc_of_shr_record mrs1) H1)) as H2.
  destruct (shr_fexp prec emax _ e1 loc_Exact) as [mrs2 e2]. cbn [fst] in H2.
  destruct (shr_m mrs2) as [| q | q]; [reflexivity | | lia].
  now destruct (e2 <=? emax - prec).
Qed.

Lemma binary_normalize_not_nan (m e : Z) :
  isNaN (binary_normalize prec emax m e false) = false.
Proof.
  destruct m as [| q | q]; [reflexivity | |];
    unfold binary_normalize, binary_round;
    destruct (shl_align q e _) as [mz ez]; now apply binary_round_aux_not_nan.
Qed.

(** [3 - x] is NaN only when [x] is. *)
Lemma sub_three_isNaN (x : number) : isNaN (sub (num 3) x) = isNaN x.
Proof.
  destruct x as [[] | [] | | s m e]; try reflexivity.
  change (num 3) with (S754_finite false 6755399441055744 (-51)).
  unfold sub. cbn [SFsub]. apply binary_normalize_not_nan.
Qed.

End Binary64.

(** ** The purchase-order transformer *)

Section Quantity.
Context {E : Engine}.

Lemma Math_max_with_zero (x : number) :
  Math_max [x; num 0]
  = if isNaN x then NaN else if gt x (num 0) then x else num 0.
Proof. destruct x as [[] | [] | | [] m e]; reflexivity. Qed.

Lemma Math_max_not_negative (x : number) :
  lt (Math_max [x; num 0]) (num 0) = false.
Proof. destruct x as [[] | [] | | [] m e]; reflexivity. Qed.

Lemma Math_max_isNaN (x : number) : isNaN (Math_max [x; num 0]) = isNaN x.
Proof. destruct x as [[] | [] | | [] m e]; reflexivity. Qed.

Lemma stockOrder_isNaN (v : jsval) : isNaN (stockOrder v) = isNaN (ToNumber v).
Proof. unfold stockOrder. now rewrite Math_max_isNaN, sub_three_isNaN. Qed.

Lemma Math_max_num (z : Z) :
  Z.abs z < 2 ^ prec -> Math_max [num z; num 0] = num (Z.max z 0).
Proof.
  intros Hz. destruct z as [| b | b].
  - reflexivity.
  - rewrite Math_max_with_zero. change (Z.max (Z.pos b) 0) with (Z.pos b).
    rewrite num_pos by exact Hz. reflexivity.
  - rewrite Math_max_with_zero. change (Z.max (Z.neg b) 0) with 0.
    rewrite num_neg by exact Hz. reflexivity.
Qed.

Lemma canon_isInteger (s : bool) (b : positive) :
  Z.pos b < 2 ^ prec -> isInteger (canon s b) = true.
Proof.
  intros Hb. assert (Hp : 0 <= prec) by (unfold prec; lia).
  pose proof (digits2_bound b prec Hp Hb) as Hd.
  unfold canon, isInteger.
  destruct (0 <=? Z.pos (digits2_pos b) - prec) eqn:He; [reflexivity |].
  apply Z.eqb_eq. rewrite shiftl_nat_Z, Z2Nat.id by lia.
  replace (- (Z.pos (digits2_pos b) - prec)) with (prec - Z.pos (digits2_pos b)) by lia.
  apply Z.mod_mul. apply Z.pow_nonzero; lia.
Qed.

Lemma num_nonneg_integer (z : Z) :
  0 <= z < 2 ^ prec -> nonneg_integer (num z) = true.
Proof.
  intros Hz. destruct z as [| b | b]; [reflexivity | | lia].
  unfold nonneg_integer. rewrite num_pos by lia.
  rewrite canon_isInteger by lia. reflexivity.
Qed.

(** On integers in range the code computes the specification's
    [max(3 - stock, 0)]. *)
Lemma stockOrder_exact (z : Z) :
  exact_range z -> stockOrder (JNum (num z)) = num (spec_quantity z).
Proof.
  intros [Hz Hd]. unfold stockOrder, spec_quantity, reorder_target in *.
  cbn [ToNumber]. rewrite sub_num; [| unfold prec; simpl; lia | exact Hz | exact Hd].
  apply Math_max_num. exact Hd.
Qed.

(** A safe integer is in the exact range or one of the three lowest. *)
Lemma safe_integer_cases (z : Z) :
  safe_integer z ->
  exact_range z
  \/ z = -9007199254740991 \/ z = -9007199254740990 \/ z = -9007199254740989.
Proof.
  unfold safe_integer, MAX_SAFE_INTEGER, exact_range, reorder_target.
  change (2 ^ prec) with 9007199254740992. lia.
Qed.

(** On the safe integers the code computes the specification's
    [max(3 - stock, 0)], rounded to a number. *)
Lemma stockOrder_safe (z : Z) :
  safe_integer z -> stockOrder (JNum (num z)) = num (spec_quantity z).
Proof.
  intros Hz. destruct (safe_integer_cases z Hz) as [Hx | [-> | [-> | ->]]];
    [exact (stockOrder_exact z Hx) | | |]; vm_compute; reflexivity.
Qed.

Lemma stockOrder_safe_nonneg_integer (z : Z) :
  safe_integer z -> nonneg_integer (stockOrder (JNum (num z))) = true.
Proof.
  intros Hz. destruct (safe_integer_cases z Hz) as [Hx | [-> | [-> | ->]]];
    [| vm_compute; reflexivity ..].
  rewrite (stockOrder_exact z Hx). apply num_nonneg_integer.
  destruct Hx as [_ Hd]. unfold spec_quantity, reorder_target in *. lia.
Qed.

Lemma purchaseLine_present (it : item) (stock : cell) :
  values it !! "stock" = Some stock ->
  purchaseLine it
  = Ok (delete "stock"
          (<["purchase" := {| value := JNum (stockOrder (value stock));
                              valid := Some true; messages := [] |}]> (values it))).
Proof. intros Hs. unfold purchaseLine. now rewrite Hs. Qed.

Lemma purchaseLine_absent (it : item) :
  values it !! "stock" = None ->
  purchaseLine it
  = Throw (TypeError "Cannot read properties of undefined (reading 'value')").
Proof. intros Hs. unfold purchaseLine. now rewrite Hs. Qed.

Lemma purchase_value_present (it : item) (stock : cell) :
  values it !! "stock" = Some stock ->
  purchase_value (purchaseLine it) = Some (JNum (stockOrder (value stock))).
Proof.
  intros Hs. rewrite (purchaseLine_present it stock Hs). unfold purchase_value.
  rewrite lookup_delete_ne by discriminate. now rewrite lookup_insert_eq.
Qed.

Lemma purchaseLine_purchase_cell (it : item) (line : gmap string cell) :
  purchaseLine it = Ok line ->
  exists q, line !! "purchase"
            = Some {| value := JNum q; valid := Some true; messages := [] |}.
Proof.
  unfold purchaseLine. destruct (values it !! "stock") as [stock |]; [| discriminate].
  intros [= <-]. eexists.
  rewrite lookup_delete_ne by discriminate. apply lookup_insert_eq.
Qed.

End Quantity.

Section PurchaseLines.
Context {E : Engine}.

(** C2: for a record whose stock cell holds the number [s], the
    purchase quantity attached to the derived line is [Math.max(3 - s, 0)]:
    NaN when [s] is NaN, [3 - s] when that is above zero, and [0]
    otherwise.  It is never below zero, and on a safe-integer stock it
    is the integer [max(3 - stock, 0)] of the specification, as a
    number. *)
Theorem purchase_quantity_is_max (it : item) (stock : cell) (s : number) :
  values it !! "stock" = Some stock ->
  value stock = JNum s ->
  let q := Math_max [sub (num 3) s; num 0] in
  purchase_value (purchaseLine it) = Some (JNum q)
  /\ q = (if isNaN s then NaN
          else if gt (sub (num 3) s) (num 0) then sub (num 3) s else num 0)
  /\ lt q (num 0) = false
  /\ (forall z : Z, s = num z -> safe_integer z -> q = num (spec_quantity z)).
Proof.
  intros Hstock Hs q. repeat split.
  - rewrite (purchase_value_present it stock Hstock), Hs. reflexivity.
  - unfold q. now rewrite Math_max_with_zero, sub_three_isNaN.
  - apply Math_max_not_negative.
  - intros z -> Hz. exact (stockOrder_safe z Hz).
Qed.

(** C3, as amended: for a record that has a stock cell, the purchase
    value attached to the derived line is a number that is never below
    zero; it is NaN exactly when the stock value coerces to NaN, and it
    is a non-negative integer when the stock value is a safe integer. *)
Theorem purchase_value_not_negative (it : item) (stock : cell) :
  values it !! "stock" = Some stock ->
  exists q : number,
    purchase_value (purchaseLine it) = Some (JNum q)
    /\ lt q (num 0) = false
    /\ isNaN q = isNaN (ToNumber (value stock))
    /\ (forall z : Z, value stock = JNum (num z) -> safe_integer z ->
        nonneg_integer q = true).
Proof.
  intros Hstock. exists (stockOrder (value stock)). repeat split.
  - exact (purchase_value_present it stock Hstock).
  - apply Math_max_not_negative.
  - apply stockOrder_isNaN.
  - intros z -> Hz. exact (stockOrder_safe_nonneg_integer z Hz).
Qed.

(** C5, as amended: the map callback never reports a validation error.
    With a stock cell present, whatever it holds is coerced by [ToNumber]
    and enters the quantity, and the purchase cell is marked valid; with
    no stock cell the callback throws a [TypeError]. *)
Theorem stock_is_coerced_not_validated (it : item) :
  validation_error (purchaseLine it) = false
  /\ match values it !! "stock" with
     | Some stock =>
         purchaseLine it
         = Ok (delete "stock"
                 (<["purchase" :=
                      {| value := JNum (Math_max [sub (num 3) (ToNumber (value stock)); num 0]);
                         valid := Some true; messages := [] |}]> (values it)))
     | None => exists msg, purchaseLine it = Throw (TypeError msg)
     end.
Proof.
  destruct (values it !! "stock") as [stock |] eqn:Hstock.
  - rewrite (purchaseLine_present it stock Hstock). split; [| reflexivity].
    unfold validation_error.
    rewrite lookup_delete_ne by discriminate. now rewrite lookup_insert_eq.
  - rewrite (purchaseLine_absent it Hstock). split; [reflexivity | eauto].
Qed.

(** C9: the derived line is the source record's [values] with the
    [purchase] cell set and the [stock] cell removed; every other field
    is the source's.  There is a derived line exactly when the record
    has a stock cell. *)
Theorem purchase_line_frame (it : item) :
  match purchaseLine it with
  | Ok line =>
      is_Some (values it !! "stock")
      /\ line !! "stock" = None
      /\ (exists q, line !! "purchase"
                    = Some {| value := JNum q; valid := Some true; messages := [] |})
      /\ (forall k : string, k <> "stock" -> k <> "purchase" ->
          line !! k = values it !! k)
  | Throw _ => values it !! "stock" = None
  end.
Proof.
  destruct (values it !! "stock") as [stock |] eqn:Hstock.
  - rewrite (purchaseLine_present it stock Hstock). repeat split.
    + eauto.
    + apply lookup_delete_eq.
    + eexists. rewrite lookup_delete_ne by discriminate. apply lookup_insert_eq.
    + intros k Hk1 Hk2.
      rewrite lookup_delete_ne by congruence. apply lookup_insert_ne. congruence.
  - rewrite (purchaseLine_absent it Hstock). reflexivity.
Qed.

End PurchaseLines.

(** Witness for C2, on the record [{title: "Dune", stock: 1}]: the quantity is 2. *)
Lemma purchase_quantity_is_max_witness :
  values (Sample.book_item "Dune" (JNum (num 1))) !! "stock"
    = Some (Sample.stock_cell (JNum (num 1)))
  /\ purchase_value (purchaseLine (E:=Sample.engine) (Sample.book_item "Dune" (JNum (num 1))))
     = Some (JNum (num 2)).
Proof.
  split; [reflexivity |].
  apply (purchase_quantity_is_max (E:=Sample.engine)
           (Sample.book_item "Dune" (JNum (num 1)))
           (Sample.stock_cell (JNum (num 1))) (num 1)).
  - reflexivity.
  - reflexivity.
Defined.

(** Counterexample to C3 as stated: a stock cell holding [undefined] gives the purchase value NaN,
    and one holding 1.5 gives 1.5; neither is a non-negative integer. *)
Lemma purchase_value_not_integer :
  (purchase_value (purchaseLine (E:=Sample.engine) (Sample.book_item "Dune" JUndefined)) = Some (JNum NaN)
   /\ nonneg_integer NaN = false)
  /\ (purchase_value
        (purchaseLine (E:=Sample.engine) (Sample.book_item "Dune" (JNum (S754_finite false 6755399441055744 (-52)))))
      = Some (JNum (S754_finite false 6755399441055744 (-52)))
      /\ nonneg_integer (S754_finite false 6755399441055744 (-52)) = false).
Proof. vm_compute. repeat split. Qed.

(** Witness for C3 as amended, on the record [{title: "Emma", stock: 5}]. *)
Lemma purchase_value_not_negative_witness :
  values (Sample.book_item "Emma" (JNum (num 5))) !! "stock"
    = Some (Sample.stock_cell (JNum (num 5)))
  /\ exists q : number,
       purchase_value (purchaseLine (E:=Sample.engine) (Sample.book_item "Emma" (JNum (num 5)))) = Some (JNum q)
       /\ lt q (num 0) = false
       /\ isNaN q = false
       /\ (forall z : Z, JNum (num 5) = JNum (num z) -> safe_integer z ->
           nonneg_integer q = true).
Proof.
  split; [reflexivity |].
  apply (purchase_value_not_negative (E:=Sample.engine)
           (Sample.book_item "Emma" (JNum (num 5)))
           (Sample.stock_cell (JNum (num 5)))).
  reflexivity.
Defined.

(** Counterexample to C5 as stated: a stock cell holding [null] is
    coerced to 0: the line carries the purchase value 3, marked valid,
    and no validation error. *)
Lemma null_stock_is_coerced :
  stock_absent_or_non_numeric (Sample.book_item "Dune" JNull) = true
  /\ validation_error (purchaseLine (E:=Sample.engine) (Sample.book_item "Dune" JNull)) = false
  /\ purchase_value (purchaseLine (E:=Sample.engine) (Sample.book_item "Dune" JNull)) = Some (JNum (num 3)).
Proof. vm_compute. repeat split. Qed.

(** ** The pattern matcher *)

Section Matcher.

Lemma nullable_matches (r : regex) : nullable r = true -> matches r [].
Proof.
  induction r as [| | p | r1 IH1 r2 IH2 | r1 IH1 r2 IH2 | r IH];
    cbn [nullable]; intros Hn; try discriminate.
  - constructor.
  - apply andb_prop in Hn as [H1 H2].
    change (@nil N) with (@nil N ++ []). constructor; auto.
  - apply orb_prop in Hn as [H1 | H2]; [apply m_alt_l | apply m_alt_r]; auto.
  - constructor.
Qed.

Lemma deriv_matches (c : N) (r : regex) (s : list N) :
  matches (deriv c r) s -> matches r (c :: s).
Proof.
  revert s.
  induction r as [| | p | r1 IH1 r2 IH2 | r1 IH1 r2 IH2 | r IH];
    intros s Hm; cbn [deriv] in Hm.
  - inversion Hm.
  - inversion Hm.
  - destruct (p c) eqn:Hp; inversion Hm; subst. now constructor.
  - destruct (nullable r1) eqn:Hn.
    + inversion Hm as [| | | ? ? ? Hl | ? ? ? Hr | |]; subst.
      * inversion Hl as [| | ? ? s1 s2 H1 H2 | | | |]; subst.
        change (c :: s1 ++ s2) with ((c :: s1) ++ s2). constructor; auto.
      * change (c :: s) with ([] ++ c :: s).
        constructor; [now apply nullable_matches | auto].
    + inversion Hm as [| | ? ? s1 s2 H1 H2 | | | |]; subst.
      change (c :: s1 ++ s2) with ((c :: s1) ++ s2). constructor; auto.
  - inversion Hm; subst; [apply m_alt_l | apply m_alt_r]; auto.
  - inversion Hm as [| | ? ? s1 s2 H1 H2 | | | |]; subst.
    change (c :: s1 ++ s2) with ((c :: s1) ++ s2). constructor; auto.
Qed.

(** What [test] accepts is in the language of the pattern. *)
Lemma derivs_matches (cs : list N) (r : regex) :
  nullable (derivs r cs) = true -> matches r cs.
Proof.
  revert r. induction cs as [| c cs IH]; intros r Hn.
  - now apply nullable_matches.
  - apply deriv_matches. apply IH. exact Hn.
Qed.

(** And [test] accepts the whole language of the pattern. *)
Lemma matches_nil_nullable (r : regex) (s : list N) :
  matches r s -> s = [] -> nullable r = true.
Proof.
  induction 1 as [| p c Hp | r1 r2 s1 s2 _ IH1 _ IH2 | r1 r2 s _ IH | r1 r2 s _ IH
                  | r | r s1 s2 _ _ _ _]; intros Hs; cbn [nullable]; try reflexivity.
  - discriminate.
  - apply app_eq_nil in Hs as [-> ->]. now rewrite IH1, IH2.
  - now rewrite IH.
  - rewrite IH by assumption. apply orb_true_r.
Qed.

Lemma matches_deriv (r : regex) (cs : list N) :
  matches r cs -> forall c s, cs = c :: s -> matches (deriv c r) s.
Proof.
  induction 1 as [| p c' Hp | r1 r2 s1 s2 H1 IH1 H2 IH2 | r1 r2 s' _ IH | r1 r2 s' _ IH
                  | r | r s1 s2 H1 IH1 H2 IH2]; intros c s Hs; cbn [deriv].
  - discriminate.
  - injection Hs as -> <-. rewrite Hp. constructor.
  - destruct s1 as [| c1 s1].
    + cbn in Hs. rewrite (matches_nil_nullable r1 [] H1 eq_refl).
      apply m_alt_r. now apply IH2.
    + injection Hs as -> <-.
      assert (Hd : matches (Seq (deriv c r1) r2) (s1 ++ s2))
        by (constructor; [now apply IH1 | exact H2]).
      destruct (nullable r1); [now apply m_alt_l | exact Hd].
  - apply m_alt_l. now apply IH.
  - apply m_alt_r. now apply IH.
  - discriminate.
  - destruct s1 as [| c1 s1].
    + cbn in Hs. now apply IH2.
    + injection Hs as -> <-. constructor; [now apply IH1 | exact H2].
Qed.

Lemma matches_derivs (cs : list N) (r : regex) :
  matches r cs -> nullable (derivs r cs) = true.
Proof.
  revert r. induction cs as [| c cs IH]; intros r Hm.
  - exact (matches_nil_nullable r [] Hm eq_refl).
  - apply IH. exact (matches_deriv r (c :: cs) Hm c cs eq_refl).
Qed.

Lemma star_class (p : N -> bool) (s : list N) :
  forallb p s = true -> matches (Star (Class p)) s.
Proof.
  induction s as [| c s IH]; intros Hs; [constructor |].
  cbn [forallb] in Hs. apply andb_prop in Hs as [Hc Hs].
  change (c :: s) with ([c] ++ s). constructor; [now constructor | auto].
Qed.

Lemma plus_class (p : N -> bool) (s : list N) :
  s <> [] -> forallb p s = true -> matches (Plus (Class p)) s.
Proof.
  destruct s as [| c s]; [congruence |]. intros _ Hs.
  cbn [forallb] in Hs. apply andb_prop in Hs as [Hc Hs].
  change (c :: s) with ([c] ++ s). constructor; [now constructor | now apply star_class].
Qed.
Context {E : Engine}.

(** The author as the specification words it passes the test. *)
Lemma well_formed_passes (s : jsstring) :
  well_formed s -> validateNameFormat (JStr s) = true.
Proof.
  intros (ws1 & surname & ws2 & given & ws3 & Hs & Hw1 & Hw2 & Hw3 & Hn1 & Hc1 & Hn2 & Hc2).
  unfold validateNameFormat, test. cbn [ToString]. apply matches_derivs.
  rewrite Hs. unfold pattern.
  constructor; [now apply star_class |].
  constructor; [now apply plus_class |].
  change (matches (Seq (Star (Class white_space))
                       (Seq (Class comma)
                            (Seq (Star (Class white_space))
                                 (Seq (Plus (Class name_char)) (Star (Class white_space))))))
                  ([] ++ [44%N] ++ ws2 ++ given ++ ws3)).
  constructor; [constructor |].
  constructor; [now constructor |].
  constructor; [now apply star_class |].
  constructor; [now apply plus_class | now apply star_class].
Qed.

(** Every string the pattern accepts has a comma in it. *)
Lemma pattern_has_comma (cs : list N) : matches pattern cs -> In 44%N cs.
Proof.
  unfold pattern. intros Hm.
  inversion Hm as [| | ? ? s1 t1 _ Hm1 | | | |]; subst.
  inversion Hm1 as [| | ? ? s2 t2 _ Hm2 | | | |]; subst.
  inversion Hm2 as [| | ? ? s3 t3 _ Hm3 | | | |]; subst.
  inversion Hm3 as [| | ? ? s4 t4 Hc _ | | | |]; subst.
  inversion Hc as [| ? c Hcomma | | | | |]; subst.
  apply N.eqb_eq in Hcomma. subst c.
  apply in_or_app; right. apply in_or_app; right. apply in_or_app; right.
  now left.
Qed.

Lemma validateNameFormat_comma (v : jsval) :
  validateNameFormat v = true -> In 44%N (codePoints (ToString v)).
Proof.
  intros Hv. apply pattern_has_comma. now apply derivs_matches.
Qed.

(** [undefined], [null] and the booleans print without a comma, so they
    never pass the test. *)
Lemma validateNameFormat_keyword (v : jsval) :
  (forall n, v <> JNum n) -> is_string v = false -> validateNameFormat v = false.
Proof.
  intros Hnum Hstr. destruct (validateNameFormat v) eqn:Hv; [| reflexivity].
  apply validateNameFormat_comma in Hv.
  destruct v as [| | [] | n | s]; try discriminate;
    try (now destruct (Hnum n));
    vm_compute in Hv; intuition discriminate.
Qed.

End Matcher.

(** ** The record validator *)

Section RecordValidator.
Context {E : Engine}.

Lemma get_author (r : FlatfileRecord) : get "author" r = (Ok (author_of r), r).
Proof. unfold get, author_of. now destruct (data r !! "author"). Qed.

Lemma split_space_no_space (s : jsstring) : no_space s -> split_space s = [s].
Proof.
  unfold no_space. induction s as [| c s IH]; intros Hs; [reflexivity |].
  cbn [split_space]. destruct (c =? 32)%N eqn:Hc.
  - apply N.eqb_eq in Hc. subst c. exfalso. apply Hs. now left.
  - rewrite IH; [reflexivity |]. intros Hin. apply Hs. now right.
Qed.

Lemma split_space_two (given surname : jsstring) :
  no_space given -> no_space surname ->
  split_space (given ++ lit " " ++ surname) = [given; surname].
Proof.
  unfold no_space. intros Hg Hs.
  induction given as [| c given IH].
  - change ([] ++ lit " " ++ surname) with (32%N :: surname).
    cbn [split_space]. rewrite N.eqb_refl.
    now rewrite (split_space_no_space surname Hs).
  - change ((c :: given) ++ lit " " ++ surname) with (c :: (given ++ lit " " ++ surname)).
    cbn [split_space]. destruct (c =? 32)%N eqn:Hc.
    + apply N.eqb_eq in Hc. subst c. exfalso. apply Hg. now left.
    + rewrite IH; [reflexivity |]. intros Hin. apply Hg. now right.
Qed.

(** The run of the hook on a record whose author is a string that fails
    the test. *)
Lemma hook_rewrites (r : FlatfileRecord) (s : jsstring) :
  data r !! "author" = Some (JStr s) ->
  validateNameFormat (JStr s) = false ->
  hook r
  = (Ok ReturnsRecord,
     {| data := <["author" := JStr (ToString (index (split_space s) 1)
                                     ++ lit ", "
                                     ++ ToString (index (split_space s) 0))]> (data r);
        info := info r ++ [("author", "Author name was updated for vendor")] |}).
Proof.
  intros Ha Hv. unfold hook, bind. rewrite get_author.
  unfold author_of. rewrite Ha, Hv. cbn [negb lift split].
  unfold set. rewrite Ha. unfold addComment. cbn [data info].
  rewrite lookup_insert_eq. reflexivity.
Qed.

(** C6: when the author already passes the test, as every string of
    the well-formed shape does, the hook changes nothing in the record,
    attaches no comment and returns nothing. *)
Theorem well_formed_author_untouched (r : FlatfileRecord) (author : jsval) :
  data r !! "author" = Some author ->
  validateNameFormat author = true
  \/ (exists s, author = JStr s /\ well_formed s) ->
  hook r = (Ok ReturnsUndefined, r).
Proof.
  intros Ha Hwf.
  assert (Hv : validateNameFormat author = true).
  { destruct Hwf as [Hv | (s & -> & Hs)]; [exact Hv | now apply well_formed_passes]. }
  unfold hook, bind. rewrite get_author.
  unfold author_of. rewrite Ha, Hv. reflexivity.
Qed.

(** C7: an author of the form ["Given Surname"], two pieces with no
    space inside and one space between, that fails the test is rewritten
    to ["Surname, Given"], and exactly one comment is attached to the
    author field. *)
Theorem two_tokens_swapped (r : FlatfileRecord) (given surname : jsstring) :
  no_space given -> no_space surname ->
  data r !! "author" = Some (JStr (given ++ lit " " ++ surname)) ->
  validateNameFormat (JStr (given ++ lit " " ++ surname)) = false ->
  hook r
  = (Ok ReturnsRecord,
     {| data := <["author" := JStr (surname ++ lit ", " ++ given)]> (data r);
        info := info r ++ [("author", "Author name was updated for vendor")] |}).
Proof.
  intros Hg Hs Ha Hv. rewrite (hook_rewrites r _ Ha Hv).
  rewrite (split_space_two given surname Hg Hs). reflexivity.
Qed.

(** C8: an author with no space in it that fails the test is rewritten
    to ["undefined, "] followed by the author: the word [undefined]
    stands where the second piece is missing. *)
Theorem one_token_gets_undefined (r : FlatfileRecord) (s : jsstring) :
  no_space s ->
  data r !! "author" = Some (JStr s) ->
  validateNameFormat (JStr s) = false ->
  hook r
  = (Ok ReturnsRecord,
     {| data := <["author" := JStr (lit "undefined" ++ lit ", " ++ s)]> (data r);
        info := info r ++ [("author", "Author name was updated for vendor")] |}).
Proof.
  intros Hs Ha Hv. rewrite (hook_rewrites r _ Ha Hv).
  rewrite (split_space_no_space s Hs). reflexivity.
Qed.

(** C10: when the author is absent or is not a string, and it fails the
    test, the hook throws a [TypeError] at [split] and leaves the record
    as it was.  The test always fails for an absent author, [undefined],
    [null] and the booleans. *)
Theorem non_string_author_throws (r : FlatfileRecord) :
  is_string (author_of r) = false ->
  (validateNameFormat (author_of r) = false ->
   exists msg, hook r = (Throw (TypeError msg), r))
  /\ ((forall n, author_of r <> JNum n) -> validateNameFormat (author_of r) = false).
Proof.
  intros Hstr. split.
  - intros Hv. unfold hook, bind. rewrite get_author, Hv. cbn [negb lift].
    destruct (author_of r) as [| | b | n | s]; try discriminate; cbn [split]; eauto.
  - intros Hnum. now apply validateNameFormat_keyword.
Qed.

End RecordValidator.

(** Witness for C6, on the author ["Smith, John"]. *)
Lemma well_formed_author_untouched_witness :
  well_formed (E:=Sample.engine) (lit "Smith, John")
  /\ hook (E:=Sample.engine) (Sample.customer (JStr (lit "Smith, John")))
     = (Ok ReturnsUndefined, Sample.customer (JStr (lit "Smith, John"))).
Proof.
  assert (Hwf : well_formed (E:=Sample.engine) (lit "Smith, John")).
  { exists [], (lit "Smith"), (lit " "), (lit "John"), [].
    repeat split; try reflexivity; discriminate. }
  split; [exact Hwf |].
  apply (well_formed_author_untouched (E:=Sample.engine)
           (Sample.customer (JStr (lit "Smith, John"))) (JStr (lit "Smith, John"))).
  - reflexivity.
  - right. exists (lit "Smith, John"). split; [reflexivity | exact Hwf].
Defined.

(** Witness for C7, on the author ["John Smith"]. *)
Lemma two_tokens_swapped_witness :
  hook (E:=Sample.engine) (Sample.customer (JStr (lit "John Smith")))
  = (Ok ReturnsRecord,
     {| data := <["author" := JStr (lit "Smith, John")]>
                  (data (Sample.customer (JStr (lit "John Smith"))));
        info := [("author", "Author name was updated for vendor")] |}).
Proof.
  apply (two_tokens_swapped (E:=Sample.engine)
           (Sample.customer (JStr (lit "John Smith"))) (lit "John") (lit "Smith")).
  - vm_compute. intuition discriminate.
  - vm_compute. intuition discriminate.
  - reflexivity.
  - reflexivity.
Defined.

(** Witness for C8, on the author ["Madonna"]. *)
Lemma one_token_gets_undefined_witness :
  hook (E:=Sample.engine) (Sample.customer (JStr (lit "Madonna")))
  = (Ok ReturnsRecord,
     {| data := <["author" := JStr (lit "undefined, Madonna")]>
                  (data (Sample.customer (JStr (lit "Madonna"))));
        info := [("author", "Author name was updated for vendor")] |}).
Proof.
  apply (one_token_gets_undefined (E:=Sample.engine)
           (Sample.customer (JStr (lit "Madonna"))) (lit "Madonna")).
  - vm_compute. intuition discriminate.
  - reflexivity.
  - reflexivity.
Defined.

(** Witness for C10, on a record whose author is [null]. *)
Lemma non_string_author_throws_witness :
  is_string (author_of (Sample.customer JNull)) = false
  /\ validateNameFormat (E:=Sample.engine) (author_of (Sample.customer JNull)) = false
  /\ exists msg,
       hook (E:=Sample.engine) (Sample.customer JNull)
       = (Throw (TypeError msg), Sample.customer JNull).
Proof.
  split; [reflexivity |].
  split; [reflexivity |].
  apply (non_string_author_throws (E:=Sample.engine) (Sample.customer JNull)).
  - reflexivity.
  - reflexivity.
Defined.

(** ** The egress handler *)

Section EgressHandler.
Context {E : Engine} {W : Type} {P : Platform W}.

Lemma map_result_Forall2 {A B : Type} (f : A -> result B) (l : list A) (bs : list B) :
  map_result f l = Ok bs -> Forall2 (fun a b => f a = Ok b) l bs.
Proof.
  revert bs. induction l as [| a l IH]; intros bs Hm; cbn [map_result] in Hm.
  - injection Hm as <-. constructor.
  - destruct (f a) as [b |] eqn:Hf; [| discriminate].
    destruct (map_result f l) as [bs' |]; [| discriminate].
    injection Hm as <-. constructor; auto.
Qed.

Lemma filter_result_total {A : Type} (p : A -> result bool) (q : A -> bool) (l : list A) :
  Forall (fun a => p a = Ok (q a)) l ->
  filter_result p l = Ok (List.filter q l).
Proof.
  induction 1 as [| a l Ha _ IH]; [reflexivity |].
  cbn [filter_result List.filter]. rewrite Ha, IH. reflexivity.
Qed.

Lemma purchasePositive_line (it : item) (line : gmap string cell) :
  purchaseLine it = Ok line -> purchasePositive line = Ok (positive_line line).
Proof.
  unfold purchaseLine. destruct (values it !! "stock") as [stock |]; [| discriminate].
  intros [= <-]. unfold purchasePositive, positive_line.
  rewrite lookup_delete_ne by discriminate. now rewrite lookup_insert_eq.
Qed.

(** The filter never throws on the lines the map produced, and keeps
    those with a purchase value above zero. *)
Lemma purchaseOrder_filter (items : list item) (lines : list (gmap string cell)) :
  purchaseInventory items = Ok lines ->
  purchaseOrder lines = Ok (List.filter positive_line lines).
Proof.
  intros Hm. apply map_result_Forall2 in Hm.
  apply filter_result_total.
  induction Hm as [| it line items lines Hl _ IH]; constructor; auto.
  exact (purchasePositive_line it line Hl).
Qed.

Lemma purchaseInventory_In (items : list item) (lines : list (gmap string cell))
      (it : item) (line : gmap string cell) :
  purchaseInventory items = Ok lines ->
  In it items -> purchaseLine it = Ok line -> In line lines.
Proof.
  intros Hm. apply map_result_Forall2 in Hm.
  induction Hm as [| it' line' items lines Hl _ IH]; intros Hin Hline.
  - destruct Hin.
  - destruct Hin as [-> | Hin].
    + left. congruence.
    + right. auto.
Qed.

Lemma purchaseInventory_total (items : list item) :
  Forall (fun it => is_Some (values it !! "stock")) items ->
  exists lines, purchaseInventory items = Ok lines.
Proof.
  unfold purchaseInventory.
  induction 1 as [| it items [stock Hstock] _ [lines IH]]; [now exists [] |].
  cbn [map_result]. rewrite (purchaseLine_present it stock Hstock), IH. eauto.
Qed.

(** C1: when the handler gets as far as the inventory records and each
    of them has a stock cell, it makes exactly one insert call, on the
    second sheet, with the derived lines whose purchase value is above
    zero, in source order.  So the line derived from a record is
    inserted if and only if its purchase value is above zero; a line
    with the value 0 is not. *)
Theorem inserted_iff_positive
    (workbookId : string) (w w1 w2 : W) (email password : jsval)
    (data : workbook) (inv ord : sheet) (rest : list sheet) (items : list item) :
  secret_answer w "email" = Ok email ->
  secret_answer w "password" = Ok password ->
  workbooks_get workbookId w = (Ok data, w1) ->
  sheets data = inv :: ord :: rest ->
  records_get (id inv) w1 = (Ok items, w2) ->
  Forall (fun it => is_Some (values it !! "stock")) items ->
  exists lines : list (gmap string cell),
    purchaseInventory items = Ok lines
    /\ let order := List.filter positive_line lines in
       List.filter is_insert (snd (snd (job_completed workbookId (w, []))))
       = [RecordsInsert (id ord) order]
       /\ (forall (it : item) (line : gmap string cell),
             In it items -> purchaseLine it = Ok line ->
             (In line order
              <-> exists q, purchase_value (Ok line) = Some (JNum q)
                            /\ gt q (num 0) = true))
       /\ (forall line, In line order ->
             purchase_value (Ok line) <> Some (JNum (num 0))).
Proof.
  intros Hemail Hpass Hbook Hsheets Hrecords Hstock.
  destruct (purchaseInventory_total items Hstock) as [lines Hlines].
  exists lines. split; [exact Hlines |]. intros order.
  assert (Hpos : forall line q,
            purchase_value (Ok line) = Some (JNum q) -> positive_line line = gt q (num 0)).
  { intros line q Hq. unfold purchase_value in Hq. unfold positive_line.
    destruct (line !! "purchase") as [c |]; [| discriminate].
    cbn in Hq. injection Hq as Hq. now rewrite Hq. }
  split; [| split].
  - unfold job_completed, bind, event_secrets, createTransport, invoke, lift, sheet_id_at.
    step. rewrite Hemail. step. rewrite Hpass. step. rewrite Hbook. step.
    rewrite Hsheets. cbn [nth_error]. step. rewrite Hrecords. step.
    rewrite Hlines. step.
    rewrite (purchaseOrder_filter items lines Hlines). fold order. step.
    destruct (records_insert (id ord) order w2) as [[[] | e3] w3]; step;
      [| reflexivity].
    destruct (sheets_getRecordsAsCsv (id ord) w3) as [[csv | e4] w4]; step;
      [| reflexivity].
    destruct (sendMail _ _ w4) as [[[] | e5] w5]; reflexivity.
  - intros it line Hit Hline. split.
    + intros Hin. apply filter_In in Hin as [_ Hp].
      destruct (purchaseLine_purchase_cell it line Hline) as [q Hq]. exists q.
      assert (Hv : purchase_value (Ok line) = Some (JNum q))
        by (unfold purchase_value; now rewrite Hq).
      split; [exact Hv |]. now rewrite <- (Hpos line q Hv).
    + intros (q & Hq & Hgt). apply filter_In. split.
      * exact (purchaseInventory_In items lines it line Hlines Hit Hline).
      * now rewrite (Hpos line q Hq).
  - intros line Hin Hz. apply filter_In in Hin as [_ Hp].
    rewrite (Hpos line (num 0) Hz) in Hp. discriminate.
Qed.

(** C4: when the [email] or the [password] secret is not in the store,
    and the lookup of a missing secret rejects, the handler fails on
    that lookup: the only calls made are secret lookups, none reaches
    the mail transport, and the world is as it was. *)
Theorem missing_secret_no_mail (workbookId : string) (w : W) :
  (forall key, exists e, absent_secret key = Throw e) ->
  secret_store w !! "email" = None \/ secret_store w !! "password" = None ->
  exists (e : exn) (log : list call),
    job_completed workbookId (w, []) = (Throw e, (w, log))
    /\ (log = [Secrets "email"] \/ log = [Secrets "email"; Secrets "password"])
    /\ List.filter is_mail_call log = [].
Proof.
  intros Habs Hmissing.
  unfold job_completed, bind, event_secrets, invoke, secret_answer. step.
  destruct (secret_store w !! "email") as [email |] eqn:Hemail; step.
  - destruct Hmissing as [Hm | Hm]; [discriminate |]. rewrite Hm.
    destruct (Habs "password") as [e He]. rewrite He.
    exists e, [Secrets "email"; Secrets "password"]. repeat split. now right.
  - destruct (Habs "email") as [e He]. rewrite He.
    exists e, [Secrets "email"]. repeat split. now left.
Qed.

End EgressHandler.

(** Witness for C1, on the inventory [{Dune: 1, Emma: 5, Ulysses: 3}]: only the line
    for Dune, with the purchase value 2, is inserted. *)
Lemma inserted_iff_positive_witness :
  Forall (fun it => is_Some (values it !! "stock")) Sample.inventory
  /\ List.filter is_insert
       (snd (snd (job_completed (E:=Sample.engine) (P:=Sample.platform) "wb"
                    (Sample.good_world, []))))
     = [RecordsInsert "orders" [Sample.order_line "Dune" 2]].
Proof.
  assert (Hstock : Forall (fun it => is_Some (values it !! "stock")) Sample.inventory)
    by (repeat constructor; eexists; reflexivity).
  split; [exact Hstock |].
  destruct (inserted_iff_positive (E:=Sample.engine) (P:=Sample.platform)
              "wb" Sample.good_world Sample.good_world Sample.good_world
              (JStr (lit "shop@books.com")) (JStr (lit "hunter2"))
              Sample.the_workbook {| id := "inventory" |} {| id := "orders" |} []
              Sample.inventory eq_refl eq_refl eq_refl eq_refl eq_refl Hstock)
    as (lines & Hlines & Hinsert & _).
  change (Ok Sample.inventory_lines = Ok lines) in Hlines.
  injection Hlines as <-. exact Hinsert.
Defined.

(** Witness for C4, on a world whose store holds no [password]. *)
Lemma missing_secret_no_mail_witness :
  Sample.store Sample.no_password_world !! "password" = None
  /\ exists (e : exn) (log : list call),
       job_completed (E:=Sample.engine) (P:=Sample.platform) "wb"
         (Sample.no_password_world, [])
       = (Throw e, (Sample.no_password_world, log))
       /\ (log = [Secrets "email"] \/ log = [Secrets "email"; Secrets "password"])
       /\ List.filter is_mail_call log = [].
Proof.
  split; [reflexivity |].
  apply (missing_secret_no_mail (E:=Sample.engine) (P:=Sample.platform)
           "wb" Sample.no_password_world).
  - intros key. eexists. reflexivity.
  - right. reflexivity.
Defined.

(** * Further properties *)

(** ** The author pattern and the hook *)

Section AuthorPattern.
Import Shape.

Lemma star_class_inv (r : regex) (s : list N) :
  matches r s -> forall p, r = Star (Class p) -> forallb p s = true.
Proof.
  induction 1 as [| q c Hq | | | | r | r s1 s2 H1 _ _ IH2]; intros p Hr;
    try discriminate; [reflexivity |].
  injection Hr as ->. inversion H1 as [| ? c Hc | | | | |]; subst.
  cbn [app forallb]. rewrite Hc. exact (IH2 p eq_refl).
Qed.

Lemma plus_class_inv (p : N -> bool) (s : list N) :
  matches (Plus (Class p)) s -> s <> [] /\ forallb p s = true.
Proof.
  unfold Plus. intros Hm. inversion Hm as [| | ? ? s1 s2 H1 H2 | | | |]; subst.
  inversion H1 as [| ? c Hc | | | | |]; subst. split; [discriminate |].
  cbn [app forallb]. rewrite Hc. exact (star_class_inv _ _ H2 p eq_refl).
Qed.

Context {E : Engine}.

Lemma pattern_accepted (cs : list N) : matches pattern cs <-> accepted cs.
Proof.
  unfold pattern, accepted. split.
  - intros Hm.
    inversion Hm as [| | ? ? ws1 t1 Hw1 Hm1 | | | |]; subst.
    inversion Hm1 as [| | ? ? surname t2 Hs Hm2 | | | |]; subst.
    inversion Hm2 as [| | ? ? ws2 t3 Hw2 Hm3 | | | |]; subst.
    inversion Hm3 as [| | ? ? cm t4 Hc Hm4 | | | |]; subst.
    inversion Hm4 as [| | ? ? ws3 t5 Hw3 Hm5 | | | |]; subst.
    inversion Hm5 as [| | ? ? given ws4 Hg Hw4 | | | |]; subst.
    inversion Hc as [| ? c Hcomma | | | | |]; subst.
    apply N.eqb_eq in Hcomma. subst c.
    apply plus_class_inv in Hs as [Hs1 Hs2]. apply plus_class_inv in Hg as [Hg1 Hg2].
    exists ws1, surname, ws2, ws3, given, ws4.
    repeat split; eauto using star_class_inv.
  - intros (ws1 & surname & ws2 & ws3 & given & ws4
            & -> & Hw1 & Hs1 & Hs2 & Hw2 & Hw3 & Hg1 & Hg2 & Hw4).
    constructor; [now apply star_class |].
    constructor; [now apply plus_class |].
    constructor; [now apply star_class |].
    constructor; [now constructor |].
    constructor; [now apply star_class |].
    constructor; [now apply plus_class | now apply star_class].
Qed.

(** X1: [validateNameFormat] accepts a value exactly when the code points
    of its string form are: white space, a non-empty run of letters,
    apostrophes and hyphens, white space, one comma, white space, a
    second such run, white space (each white space possibly empty). *)
Theorem validateNameFormat_language (v : jsval) :
  validateNameFormat v = true <-> accepted (codePoints (ToString v)).
Proof.
  unfold validateNameFormat, test. rewrite <- pattern_accepted. split.
  - apply derivs_matches.
  - apply matches_derivs.
Qed.

End AuthorPattern.

Section HookBehaviour.
Context {E : Engine}.

Lemma hook_passes (r : FlatfileRecord) :
  validateNameFormat (author_of r) = true -> hook r = (Ok ReturnsUndefined, r).
Proof. intros Hv. unfold hook, bind. now rewrite get_author, Hv. Qed.

Lemma hook_throws (r : FlatfileRecord) :
  validateNameFormat (author_of r) = false ->
  is_string (author_of r) = false ->
  exists msg, hook r = (Throw (TypeError msg), r).
Proof.
  intros Hv Hs. unfold hook, bind. rewrite get_author, Hv. cbn [negb lift].
  destruct (author_of r) as [| | b | n | s]; try discriminate; cbn [split]; eauto.
Qed.

Lemma author_of_string (r : FlatfileRecord) (s : jsstring) :
  author_of r = JStr s -> data r !! "author" = Some (JStr s).
Proof.
  unfold author_of. destruct (data r !! "author") as [v |]; [| discriminate].
  now intros ->.
Qed.

(** X2: whatever the record, the hook touches nothing but the author
    value and the comment list: every other field keeps its value, no
    field is created or removed, and the comments already attached stay.
    It returns the record exactly when it rewrote a string author and
    appended its one comment; when it returns nothing or throws, the
    record is as it was. *)
Theorem hook_frame (r : FlatfileRecord) :
  (forall k : string, k <> "author" -> data (snd (hook r)) !! k = data r !! k)
  /\ (is_Some (data (snd (hook r)) !! "author") <-> is_Some (data r !! "author"))
  /\ (fst (hook r) = Ok ReturnsRecord ->
      info (snd (hook r)) = info r ++ [("author", "Author name was updated for vendor")]
      /\ is_string (author_of r) = true
      /\ is_string (author_of (snd (hook r))) = true)
  /\ (fst (hook r) <> Ok ReturnsRecord -> snd (hook r) = r).
Proof.
  destruct (validateNameFormat (author_of r)) eqn:Hv.
  - rewrite (hook_passes r Hv). cbn [fst snd]. repeat split; try tauto; discriminate.
  - destruct (is_string (author_of r)) eqn:Hstr.
    2: { destruct (hook_throws r Hv Hstr) as [msg ->].
         cbn [fst snd]. repeat split; try tauto; discriminate. }
    destruct (author_of r) as [| | b | n | s] eqn:Ha; try discriminate.
    pose proof (author_of_string r s Ha) as Hd.
    rewrite (hook_rewrites r s Hd Hv). cbn [fst snd data info]. repeat split.
    + intros k Hk. now rewrite lookup_insert_ne by congruence.
    + intros _. rewrite Hd. eauto.
    + intros _. rewrite lookup_insert_eq. eauto.
    + unfold author_of. cbn [data]. now rewrite lookup_insert_eq.
    + intros Hne. now destruct Hne.
Qed.

Lemma split_space_token (a rest : jsstring) :
  no_space a -> split_space (a ++ lit " " ++ rest) = a :: split_space rest.
Proof.
  unfold no_space. intros Ha. induction a as [| c a IH].
  - change ([] ++ lit " " ++ rest) with (32%N :: rest).
    cbn [split_space]. now rewrite N.eqb_refl.
  - change ((c :: a) ++ lit " " ++ rest) with (c :: (a ++ lit " " ++ rest)).
    cbn [split_space]. destruct (c =? 32)%N eqn:Hc.
    + apply N.eqb_eq in Hc. subst c. exfalso. apply Ha. now left.
    + rewrite IH; [reflexivity |]. intros Hin. apply Ha. now right.
Qed.

(** X3: only the first two space-separated pieces of the author are
    used.  An author ["A B rest"] that fails the test becomes ["B, A"]:
    everything after the second space is dropped. *)
Theorem later_tokens_dropped (r : FlatfileRecord) (a b rest : jsstring) :
  no_space a -> no_space b ->
  data r !! "author" = Some (JStr (a ++ lit " " ++ b ++ lit " " ++ rest)) ->
  validateNameFormat (JStr (a ++ lit " " ++ b ++ lit " " ++ rest)) = false ->
  hook r
  = (Ok ReturnsRecord,
     {| data := <["author" := JStr (b ++ lit ", " ++ a)]> (data r);
        info := info r ++ [("author", "Author name was updated for vendor")] |}).
Proof.
  intros Ha Hb Hd Hv. rewrite (hook_rewrites r _ Hd Hv).
  rewrite (split_space_token a _ Ha), (split_space_token b _ Hb). reflexivity.
Qed.

Lemma codePoints_step (hi lo : N) (rest : jsstring) :
  codePoints (hi :: lo :: rest)
  = if is_high_surrogate hi && is_low_surrogate lo
    then (65536 + (hi - 55296) * 1024 + (lo - 56320))%N :: codePoints rest
    else hi :: codePoints (lo :: rest).
Proof. reflexivity. Qed.

Lemma codePoints_cons_plain (c : N) (b : jsstring) :
  is_high_surrogate c = false -> codePoints (c :: b) = c :: codePoints b.
Proof.
  intros Hc. destruct b as [| lo rest]; [reflexivity |].
  now rewrite codePoints_step, Hc.
Qed.

(** A code unit that is no surrogate separates the code points before it
    from those after it. *)
Lemma codePoints_app_plain (a b : jsstring) (c : N) :
  is_high_surrogate c = false -> is_low_surrogate c = false ->
  codePoints (a ++ c :: b) = codePoints a ++ c :: codePoints b.
Proof.
  intros Hh Hl.
  assert (Hboth : codePoints (a ++ c :: b) = codePoints a ++ c :: codePoints b
                  /\ forall x, codePoints (x :: a ++ c :: b)
                               = codePoints (x :: a) ++ c :: codePoints b);
    [| exact (proj1 Hboth)].
  induction a as [| y a [IH1 IH2]].
  - split; [exact (codePoints_cons_plain c b Hh) |].
    intros x. change (x :: [] ++ c :: b) with (x :: c :: b).
    rewrite codePoints_step, Hl, andb_false_r.
    now rewrite (codePoints_cons_plain c b Hh).
  - split; [exact (IH2 y) |].
    intros x. change (x :: (y :: a) ++ c :: b) with (x :: y :: (a ++ c :: b)).
    rewrite !codePoints_step. destruct (is_high_surrogate x && is_low_surrogate y).
    + now rewrite IH1.
    + now rewrite (IH2 y).
Qed.

Lemma codePoints_not_nil (s : jsstring) : s <> [] -> codePoints s <> [].
Proof.
  destruct s as [| x [| y rest]]; [congruence | discriminate |].
  intros _. rewrite codePoints_step.
  now destruct (is_high_surrogate x && is_low_surrogate y).
Qed.

(** X4: on a proper ["Given Surname"] (two non-empty pieces of letters,
    apostrophes and hyphens, one space between) the hook settles after
    one run: what it writes, ["Surname, Given"], passes its own test, so
    a second run changes nothing. *)
Theorem proper_name_settles (r : FlatfileRecord) (given surname : jsstring) :
  given <> [] -> surname <> [] ->
  no_space given -> no_space surname ->
  forallb name_char (codePoints given) = true ->
  forallb name_char (codePoints surname) = true ->
  data r !! "author" = Some (JStr (given ++ lit " " ++ surname)) ->
  validateNameFormat (JStr (surname ++ lit ", " ++ given)) = true
  /\ hook (snd (hook r)) = (Ok ReturnsUndefined, snd (hook r)).
Proof.
  intros Hg0 Hs0 Hg1 Hs1 Hg2 Hs2 Hd.
  assert (Hout : validateNameFormat (JStr (surname ++ lit ", " ++ given)) = true).
  { apply well_formed_passes.
    exists [], (codePoints surname), [32%N], (codePoints given), [].
    repeat split; auto using codePoints_not_nil.
    change (surname ++ lit ", " ++ given) with (surname ++ 44%N :: ([] ++ 32%N :: given)).
    rewrite (codePoints_app_plain surname _ 44) by reflexivity.
    rewrite (codePoints_app_plain [] given 32) by reflexivity.
    cbn [app codePoints]. now rewrite app_nil_r. }
  split; [exact Hout |].
  destruct (validateNameFormat (JStr (given ++ lit " " ++ surname))) eqn:Hv.
  - assert (Hp : hook r = (Ok ReturnsUndefined, r)).
    { apply hook_passes. unfold author_of. now rewrite Hd. }
    rewrite Hp. cbn [snd]. exact Hp.
  - rewrite (hook_rewrites r _ Hd Hv), (split_space_two given surname Hg1 Hs1).
    cbn [snd]. apply hook_passes. unfold author_of. cbn [data].
    rewrite lookup_insert_eq. exact Hout.
Qed.

End HookBehaviour.

(** Witness for X3, on the author ["John Quincy Adams"]: it becomes
    ["Quincy, John"]. *)
Lemma later_tokens_dropped_witness :
  hook (E:=Sample.engine) (Sample.customer (JStr (lit "John Quincy Adams")))
  = (Ok ReturnsRecord,
     {| data := <["author" := JStr (lit "Quincy, John")]>
                  (data (Sample.customer (JStr (lit "John Quincy Adams"))));
        info := [("author", "Author name was updated for vendor")] |}).
Proof.
  apply (later_tokens_dropped (E:=Sample.engine)
           (Sample.customer (JStr (lit "John Quincy Adams")))
           (lit "John") (lit "Quincy") (lit "Adams")).
  - vm_compute. intuition discriminate.
  - vm_compute. intuition discriminate.
  - reflexivity.
  - reflexivity.
Defined.

(** Witness for X4, on the author ["John Smith"]. *)
Lemma proper_name_settles_witness :
  validateNameFormat (E:=Sample.engine) (JStr (lit "Smith, John")) = true
  /\ hook (E:=Sample.engine)
       (snd (hook (E:=Sample.engine) (Sample.customer (JStr (lit "John Smith")))))
     = (Ok ReturnsUndefined,
        snd (hook (E:=Sample.engine) (Sample.customer (JStr (lit "John Smith"))))).
Proof.
  apply (proper_name_settles (E:=Sample.engine)
           (Sample.customer (JStr (lit "John Smith"))) (lit "John") (lit "Smith")).
  - discriminate.
  - discriminate.
  - vm_compute. intuition discriminate.
  - vm_compute. intuition discriminate.
  - reflexivity.
  - reflexivity.
  - reflexivity.
Defined.

(** ** The purchase decision *)

Section PurchaseDecision.
Context {E : Engine}.

Lemma isNaN_eq (x : number) : isNaN x = true -> x = NaN.
Proof. destruct x; try discriminate. reflexivity. Qed.

Lemma gt_quantity (z : Z) :
  safe_integer z -> gt (num (spec_quantity z)) (num 0) = (z <? 3).
Proof.
  intros Hz. unfold spec_quantity, reorder_target.
  destruct (safe_integer_cases z Hz) as [[_ Hd] | [-> | [-> | ->]]];
    [| vm_compute; reflexivity ..].
  unfold reorder_target in Hd. destruct (Z.ltb_spec z 3) as [Hlt | Hge].
  - destruct (3 - z) as [| q | q] eqn:Hq; try lia.
    change (Z.max (Z.pos q) 0) with (Z.pos q).
    rewrite num_pos by exact Hd. reflexivity.
  - replace (Z.max (3 - z) 0) with 0 by lia. reflexivity.
Qed.

Lemma purchasePositive_present (it : item) (stock : cell) :
  values it !! "stock" = Some stock ->
  exists line, purchaseLine it = Ok line
    /\ purchasePositive line = Ok (gt (stockOrder (value stock)) (num 0)).
Proof.
  intros Hs. eexists. split; [exact (purchaseLine_present it stock Hs) |].
  unfold purchasePositive.
  rewrite lookup_delete_ne by discriminate. now rewrite lookup_insert_eq.
Qed.

(** X5: for a record whose stock is a safe integer [z], the derived
    line passes the filter exactly when [z < 3], and its purchase value
    is [max(3 - z, 0)]: a stock below the target is topped up to 3, a
    negative stock orders more than 3. *)
Theorem reorder_iff_below_target (it : item) (stock : cell) (z : Z) :
  values it !! "stock" = Some stock ->
  value stock = JNum (num z) ->
  safe_integer z ->
  exists line,
    purchaseLine it = Ok line
    /\ purchasePositive line = Ok (z <? 3)
    /\ purchase_value (Ok line) = Some (JNum (num (Z.max (3 - z) 0))).
Proof.
  intros Hs Hv Hz.
  destruct (purchasePositive_present it stock Hs) as (line & Hline & Hpos).
  exists line. split; [exact Hline |].
  rewrite Hv, (stockOrder_safe z Hz) in Hpos. rewrite (gt_quantity z Hz) in Hpos.
  split; [exact Hpos |].
  rewrite <- Hline, (purchase_value_present it stock Hs), Hv, (stockOrder_safe z Hz).
  reflexivity.
Qed.

(** X6: a stock value that coerces to NaN ([undefined], NaN itself, a
    string that is no number) raises nothing: the derived line carries
    the purchase value NaN, marked valid, and the filter leaves it out. *)
Theorem nan_stock_left_out (it : item) (stock : cell) :
  values it !! "stock" = Some stock ->
  isNaN (ToNumber (value stock)) = true ->
  exists line,
    purchaseLine it = Ok line
    /\ line !! "purchase"
       = Some {| value := JNum NaN; valid := Some true; messages := [] |}
    /\ purchasePositive line = Ok false.
Proof.
  intros Hs Hnan.
  assert (Hq : stockOrder (value stock) = NaN)
    by (apply isNaN_eq; now rewrite stockOrder_isNaN).
  destruct (purchasePositive_present it stock Hs) as (line & Hline & Hpos).
  exists line. split; [exact Hline |]. rewrite Hq in Hpos. split; [| exact Hpos].
  rewrite (purchaseLine_present it stock Hs) in Hline. injection Hline as <-.
  rewrite lookup_delete_ne by discriminate. now rewrite lookup_insert_eq, Hq.
Qed.

End PurchaseDecision.

(** Witness for X5, on the record [{title: "Dune", stock: 1}]. *)
Lemma reorder_iff_below_target_witness :
  safe_integer 1
  /\ exists line,
       purchaseLine (E:=Sample.engine) (Sample.book_item "Dune" (JNum (num 1))) = Ok line
       /\ purchasePositive (E:=Sample.engine) line = Ok true
       /\ purchase_value (Ok line) = Some (JNum (num 2)).
Proof.
  assert (Hsafe : safe_integer 1) by (vm_compute; discriminate).
  split; [exact Hsafe |].
  apply (reorder_iff_below_target (E:=Sample.engine)
           (Sample.book_item "Dune" (JNum (num 1)))
           (Sample.stock_cell (JNum (num 1))) 1);
    [reflexivity | reflexivity | exact Hsafe].
Defined.

(** Witness for X6, on the record [{title: "Dune", stock: undefined}]. *)
Lemma nan_stock_left_out_witness :
  exists line,
    purchaseLine (E:=Sample.engine) (Sample.book_item "Dune" JUndefined) = Ok line
    /\ line !! "purchase"
       = Some {| value := JNum NaN; valid := Some true; messages := [] |}
    /\ purchasePositive (E:=Sample.engine) line = Ok false.
Proof.
  apply (nan_stock_left_out (E:=Sample.engine)
           (Sample.book_item "Dune" JUndefined) (Sample.stock_cell JUndefined));
    reflexivity.
Defined.

(** ** Runs of the egress handler *)

Section EgressRuns.
Import Shape.
Context {E : Engine} {W : Type} {P : Platform W}.

Lemma purchaseInventory_throws (items : list item) :
  Exists (fun it => values it !! "stock" = None) items ->
  purchaseInventory items
  = Throw (TypeError "Cannot read properties of undefined (reading 'value')").
Proof.
  unfold purchaseInventory. induction items as [| it items IH]; intros Hex.
  - inversion Hex.
  - cbn [map_result]. destruct (values it !! "stock") as [stock |] eqn:Hs.
    + rewrite (purchaseLine_present it stock Hs).
      inversion Hex as [? ? Hnone | ? ? Hrest]; subst; [congruence |].
      now rewrite (IH Hrest).
    + now rewrite (purchaseLine_absent it Hs).
Qed.

(** X7: when every collaborator answers, the handler makes eight calls
    in this order: the two secret lookups, the workbook, the records of
    its first sheet, the insert into its second sheet, the CSV of that
    second sheet read after the insert, the transport, and one send.
    The transport logs in with the two secrets, and the mail goes from
    the [email] secret to [warehouse@books.com] with the CSV as
    [orders.csv].  What the send answers is what the handler answers. *)
Theorem successful_run
    (workbookId : string) (w w1 w2 w3 w4 w5 : W) (email password csv : jsval)
    (data : workbook) (inv ord : sheet) (rest : list sheet)
    (items : list item) (lines : list (gmap string cell)) (sent : result unit) :
  secret_answer w "email" = Ok email ->
  secret_answer w "password" = Ok password ->
  workbooks_get workbookId w = (Ok data, w1) ->
  sheets data = inv :: ord :: rest ->
  records_get (id inv) w1 = (Ok items, w2) ->
  purchaseInventory items = Ok lines ->
  records_insert (id ord) (List.filter positive_line lines) w2 = (Ok tt, w3) ->
  sheets_getRecordsAsCsv (id ord) w3 = (Ok csv, w4) ->
  sendMail (gmail email password) (purchase_order_mail email csv) w4 = (sent, w5) ->
  job_completed workbookId (w, [])
  = (sent,
     (w5,
      [ Secrets "email"; Secrets "password"; WorkbooksGet workbookId;
        RecordsGet (id inv);
        RecordsInsert (id ord) (List.filter positive_line lines);
        GetRecordsAsCsv (id ord);
        CreateTransport (gmail email password);
        SendMail (gmail email password) (purchase_order_mail email csv) ])).
Proof.
  intros Hemail Hpass Hbook Hsheets Hrecords Hlines Hinsert Hcsv Hsend.
  open_handler. rewrite Hemail. step. rewrite Hpass. step. rewrite Hbook. step.
  rewrite Hsheets. cbn [nth_error]. step. rewrite Hrecords. step.
  rewrite Hlines. step. rewrite (purchaseOrder_filter items lines Hlines). step.
  rewrite Hinsert. step. rewrite Hcsv. step.
  unfold gmail, purchase_order_mail in Hsend. rewrite Hsend. reflexivity.
Qed.

(** X8: a workbook with fewer than two sheets makes the handler throw a
    [TypeError] right after the workbook is fetched: no records are
    read, nothing is inserted and no mail is sent. *)
Theorem too_few_sheets
    (workbookId : string) (w w1 : W) (email password : jsval) (data : workbook) :
  secret_answer w "email" = Ok email ->
  secret_answer w "password" = Ok password ->
  workbooks_get workbookId w = (Ok data, w1) ->
  (length (sheets data) < 2)%nat ->
  job_completed workbookId (w, [])
  = (Throw (TypeError "Cannot read properties of undefined (reading 'id')"),
     (w1, [ Secrets "email"; Secrets "password"; WorkbooksGet workbookId ])).
Proof.
  intros Hemail Hpass Hbook Hlen.
  open_handler. rewrite Hemail. step. rewrite Hpass. step. rewrite Hbook. step.
  destruct (sheets data) as [| inv [| ord rest]]; cbn [nth_error]; step;
    [reflexivity | reflexivity | cbn [length] in Hlen; lia].
Qed.

(** X9: one record without a [stock] cell aborts the whole run: the map
    throws a [TypeError], so nothing is inserted, not even the lines of
    the other records, and no mail is sent. *)
Theorem record_without_stock_aborts
    (workbookId : string) (w w1 w2 : W) (email password : jsval)
    (data : workbook) (inv ord : sheet) (rest : list sheet) (items : list item) :
  secret_answer w "email" = Ok email ->
  secret_answer w "password" = Ok password ->
  workbooks_get workbookId w = (Ok data, w1) ->
  sheets data = inv :: ord :: rest ->
  records_get (id inv) w1 = (Ok items, w2) ->
  Exists (fun it => values it !! "stock" = None) items ->
  job_completed workbookId (w, [])
  = (Throw (TypeError "Cannot read properties of undefined (reading 'value')"),
     (w2, [ Secrets "email"; Secrets "password"; WorkbooksGet workbookId;
            RecordsGet (id inv) ])).
Proof.
  intros Hemail Hpass Hbook Hsheets Hrecords Hgap.
  open_handler. rewrite Hemail. step. rewrite Hpass. step. rewrite Hbook. step.
  rewrite Hsheets. cbn [nth_error]. step. rewrite Hrecords. step.
  now rewrite (purchaseInventory_throws items Hgap).
Qed.

(** X10: in every run, whatever the collaborators answer, the calls made
    are an initial stretch of the eight calls of the source, in source
    order and each at most once.  The handler succeeds only after all
    eight, and a call to the mail transport is only made after the
    insert call. *)
Theorem calls_in_source_order (workbookId : string) (w : W) :
  let out := job_completed workbookId (w, []) in
  let log := snd (snd out) in
  map stage log = seq 0 (length log)
  /\ (1 <= length log <= 8)%nat
  /\ (is_ok (fst out) = true -> length log = 8%nat)
  /\ (existsb is_mail_call log = true -> existsb is_insert log = true).
Proof.
  open_handler.
  destruct (secret_answer w "email") as [email | e]; step;
    [| cbn; repeat split; (lia || discriminate)].
  destruct (secret_answer w "password") as [password | e]; step;
    [| cbn; repeat split; (lia || discriminate)].
  destruct (workbooks_get workbookId w) as [[data | e] w1]; step;
    [| cbn; repeat split; (lia || discriminate)].
  destruct (sheets data) as [| inv [| ord rest]]; cbn [nth_error]; step;
    [cbn; repeat split; (lia || discriminate) ..|].
  destruct (records_get (id inv) w1) as [[items | e] w2]; step;
    [| cbn; repeat split; (lia || discriminate)].
  destruct (purchaseInventory items) as [lines | e]; step;
    [| cbn; repeat split; (lia || discriminate)].
  destruct (purchaseOrder lines) as [order | e]; step;
    [| cbn; repeat split; (lia || discriminate)].
  destruct (records_insert (id ord) order w2) as [[[] | e] w3]; step;
    [| cbn; repeat split; (lia || discriminate || reflexivity)].
  destruct (sheets_getRecordsAsCsv (id ord) w3) as [[csv | e] w4]; step;
    [| cbn; repeat split; (lia || discriminate || reflexivity)].
  destruct (sendMail _ _ w4) as [[[] | e] w5];
    cbn; repeat split; (lia || discriminate || reflexivity).
Qed.

Lemma nothing_positive (items : list item) :
  Forall (fun it => exists stock z,
            values it !! "stock" = Some stock /\ value stock = JNum (num z)
            /\ safe_integer z /\ 3 <= z) items ->
  exists lines, purchaseInventory items = Ok lines
                /\ List.filter positive_line lines = [].
Proof.
  unfold purchaseInventory.
  induction 1 as [| it items (stock & z & Hs & Hv & Hz & Hge) _ (lines & IH1 & IH2)].
  - now exists [].
  - cbn [map_result]. rewrite (purchaseLine_present it stock Hs), IH1.
    eexists. split; [reflexivity |]. cbn [List.filter].
    unfold positive_line at 1.
    rewrite lookup_delete_ne by discriminate. rewrite lookup_insert_eq.
    cbn [value ToNumber]. rewrite Hv, (stockOrder_safe z Hz), (gt_quantity z Hz).
    destruct (Z.ltb_spec z 3); [lia | exact IH2].
Qed.

(** X11: when no record needs reordering (every stock is a safe integer
    of at least 3) the handler still inserts, with an empty list of
    records, and still sends the mail with the CSV of the order sheet. *)
Theorem nothing_to_reorder_still_mails
    (workbookId : string) (w w1 w2 w3 w4 w5 : W) (email password csv : jsval)
    (data : workbook) (inv ord : sheet) (rest : list sheet)
    (items : list item) (sent : result unit) :
  secret_answer w "email" = Ok email ->
  secret_answer w "password" = Ok password ->
  workbooks_get workbookId w = (Ok data, w1) ->
  sheets data = inv :: ord :: rest ->
  records_get (id inv) w1 = (Ok items, w2) ->
  Forall (fun it => exists stock z,
            values it !! "stock" = Some stock /\ value stock = JNum (num z)
            /\ safe_integer z /\ 3 <= z) items ->
  records_insert (id ord) [] w2 = (Ok tt, w3) ->
  sheets_getRecordsAsCsv (id ord) w3 = (Ok csv, w4) ->
  sendMail (gmail email password) (purchase_order_mail email csv) w4 = (sent, w5) ->
  job_completed workbookId (w, [])
  = (sent,
     (w5,
      [ Secrets "email"; Secrets "password"; WorkbooksGet workbookId;
        RecordsGet (id inv); RecordsInsert (id ord) []; GetRecordsAsCsv (id ord);
        CreateTransport (gmail email password);
        SendMail (gmail email password) (purchase_order_mail email csv) ])).
Proof.
  intros Hemail Hpass Hbook Hsheets Hrecords Hfull Hinsert Hcsv Hsend.
  destruct (nothing_positive items Hfull) as (lines & Hlines & Hnone).
  open_handler. rewrite Hemail. step. rewrite Hpass. step. rewrite Hbook. step.
  rewrite Hsheets. cbn [nth_error]. step. rewrite Hrecords. step.
  rewrite Hlines. step. rewrite (purchaseOrder_filter items lines Hlines), Hnone. step.
  rewrite Hinsert. step. rewrite Hcsv. step.
  unfold gmail, purchase_order_mail in Hsend. rewrite Hsend. reflexivity.
Qed.

End EgressRuns.

(** Witness for X7, on the sample world: the run succeeds, and the mail
    carries the CSV of the order sheet. *)
Lemma successful_run_witness :
  exists w5 : Sample.world,
    job_completed (E:=Sample.engine) (P:=Sample.platform) "wb" (Sample.good_world, [])
    = (Ok tt,
       (w5,
        [ Secrets "email"; Secrets "password"; WorkbooksGet "wb"; RecordsGet "inventory";
          RecordsInsert "orders"
            (List.filter (positive_line (E:=Sample.engine)) Sample.inventory_lines);
          GetRecordsAsCsv "orders";
          CreateTransport
            (Shape.gmail (JStr (lit "shop@books.com")) (JStr (lit "hunter2")));
          SendMail
            (Shape.gmail (JStr (lit "shop@books.com")) (JStr (lit "hunter2")))
            (Shape.purchase_order_mail (JStr (lit "shop@books.com")) (JStr (lit "csv"))) ])).
Proof.
  eexists.
  eapply (successful_run (E:=Sample.engine) (P:=Sample.platform)
            "wb" Sample.good_world Sample.good_world Sample.good_world _ _ _
            (JStr (lit "shop@books.com")) (JStr (lit "hunter2")) (JStr (lit "csv"))
            Sample.the_workbook {| id := "inventory" |} {| id := "orders" |} []
            Sample.inventory Sample.inventory_lines (Ok tt));
    reflexivity.
Defined.

(** Witness for X8, on a workbook with one sheet. *)
Lemma too_few_sheets_witness :
  job_completed (E:=Sample.engine) (P:=Sample.platform) "wb" (Scenario.one_sheet_world, [])
  = (Throw (TypeError "Cannot read properties of undefined (reading 'id')"),
     (Scenario.one_sheet_world, [ Secrets "email"; Secrets "password"; WorkbooksGet "wb" ])).
Proof.
  apply (too_few_sheets (E:=Sample.engine) (P:=Sample.platform)
           "wb" Scenario.one_sheet_world Scenario.one_sheet_world
           (JStr (lit "shop@books.com")) (JStr (lit "hunter2"))
           {| sheets := [ {| id := "inventory" |} ] |});
    [reflexivity | reflexivity | reflexivity | cbn; lia].
Defined.

(** Witness for X9, on an inventory whose second record has no stock:
    the line for Dune, with the purchase value 2, is not inserted. *)
Lemma record_without_stock_aborts_witness :
  job_completed (E:=Sample.engine) (P:=Sample.platform) "wb" (Scenario.gappy_world, [])
  = (Throw (TypeError "Cannot read properties of undefined (reading 'value')"),
     (Scenario.gappy_world,
      [ Secrets "email"; Secrets "password"; WorkbooksGet "wb"; RecordsGet "inventory" ])).
Proof.
  apply (record_without_stock_aborts (E:=Sample.engine) (P:=Sample.platform)
           "wb" Scenario.gappy_world Scenario.gappy_world Scenario.gappy_world
           (JStr (lit "shop@books.com")) (JStr (lit "hunter2"))
           Sample.the_workbook {| id := "inventory" |} {| id := "orders" |} []
           Scenario.gappy_inventory);
    try reflexivity.
  right. left. reflexivity.
Defined.

(** Witness for X11, on the inventory [{Emma: 5, Ulysses: 3}]. *)
Lemma nothing_to_reorder_still_mails_witness :
  exists w5 : Sample.world,
    job_completed (E:=Sample.engine) (P:=Sample.platform) "wb" (Scenario.full_world, [])
    = (Ok tt,
       (w5,
        [ Secrets "email"; Secrets "password"; WorkbooksGet "wb"; RecordsGet "inventory";
          RecordsInsert "orders" []; GetRecordsAsCsv "orders";
          CreateTransport
            (Shape.gmail (JStr (lit "shop@books.com")) (JStr (lit "hunter2")));
          SendMail
            (Shape.gmail (JStr (lit "shop@books.com")) (JStr (lit "hunter2")))
            (Shape.purchase_order_mail (JStr (lit "shop@books.com")) (JStr (lit "csv"))) ])).
Proof.
  eexists.
  eapply (nothing_to_reorder_still_mails (E:=Sample.engine) (P:=Sample.platform)
            "wb" Scenario.full_world Scenario.full_world Scenario.full_world _ _ _
            (JStr (lit "shop@books.com")) (JStr (lit "hunter2")) (JStr (lit "csv"))
            Sample.the_workbook {| id := "inventory" |} {| id := "orders" |} []
            Scenario.full_inventory (Ok tt));
    try reflexivity.
  repeat constructor.
  - exists (Sample.stock_cell (JNum (num 5))), 5.
    split; [reflexivity | split; [reflexivity | split; [vm_compute; discriminate | lia]]].
  - exists (Sample.stock_cell (JNum (num 3))), 3.
    split; [reflexivity | split; [reflexivity | split; [vm_compute; discriminate | lia]]].
Defined.

(** ** The automap file-name pattern *)

Section FileNames.
Import Automap.

Lemma Lit_matches (l s : list N) : matches (Lit l) s <-> s = l.
Proof.
  split.
  - revert s. induction l as [| c l IH]; intros s Hm; cbn [Lit] in Hm.
    + now inversion Hm.
    + inversion Hm as [| | ? ? s1 s2 H1 H2 | | | |]; subst.
      inversion H1 as [| ? c' Hc | | | | |]; subst.
      apply N.eqb_eq in Hc. subst c'. cbn [app]. f_equal. now apply IH.
  - intros ->. induction l as [| c l IH]; cbn [Lit]; [constructor |].
    change (c :: l) with ([c] ++ l). constructor; [| exact IH].
    constructor. apply N.eqb_refl.
Qed.

Lemma seq_inv (r1 r2 : regex) (s : list N) :
  matches (Seq r1 r2) s ->
  exists s1 s2, s = s1 ++ s2 /\ matches r1 s1 /\ matches r2 s2.
Proof. intros Hm. inversion Hm; subst. eauto. Qed.

(** X12: the automap pattern accepts a file name exactly when it ends
    in [inventory.xlsx] and nothing before that ending is a line
    terminator; anything may precede the ending, also nothing. *)
Theorem matchFilename_language (name : jsstring) :
  test_units matchFilename name = true
  <-> exists prefix : jsstring,
        name = prefix ++ lit "inventory.xlsx" /\ forallb dot prefix = true.
Proof.
  unfold test_units, matchFilename. split.
  - intros Hn. apply derivs_matches in Hn.
    apply seq_inv in Hn as (prefix & tail & -> & Hp & Ht).
    apply Lit_matches in Ht. subst tail.
    exists prefix. split; [reflexivity |]. exact (star_class_inv _ _ Hp dot eq_refl).
  - intros (prefix & -> & Hp). apply matches_derivs.
    constructor; [now apply star_class | now apply Lit_matches].
Qed.

End FileNames.

(** ** Rejections after the map *)

Section Rejections.
Context {E : Engine} {W : Type} {P : Platform W}.

(** X13: when the insert is rejected the handler fails with that
    rejection and stops there: the CSV is not fetched and no mail is
    sent. *)
Theorem insert_rejection_stops_run
    (workbookId : string) (w w1 w2 w3 : W) (email password : jsval)
    (data : workbook) (inv ord : sheet) (rest : list sheet)
    (items : list item) (lines : list (gmap string cell)) (e : exn) :
  secret_answer w "email" = Ok email ->
  secret_answer w "password" = Ok password ->
  workbooks_get workbookId w = (Ok data, w1) ->
  sheets data = inv :: ord :: rest ->
  records_get (id inv) w1 = (Ok items, w2) ->
  purchaseInventory items = Ok lines ->
  records_insert (id ord) (List.filter positive_line lines) w2 = (Throw e, w3) ->
  job_completed workbookId (w, [])
  = (Throw e,
     (w3,
      [ Secrets "email"; Secrets "password"; WorkbooksGet workbookId;
        RecordsGet (id inv);
        RecordsInsert (id ord) (List.filter positive_line lines) ])).
Proof.
  intros Hemail Hpass Hbook Hsheets Hrecords Hlines Hinsert.
  open_handler. rewrite Hemail. step. rewrite Hpass. step. rewrite Hbook. step.
  rewrite Hsheets. cbn [nth_error]. step. rewrite Hrecords. step.
  rewrite Hlines. step. rewrite (purchaseOrder_filter items lines Hlines). step.
  now rewrite Hinsert.
Qed.

(** X14: when the insert succeeded and the CSV export is rejected, the
    handler fails with that rejection and sends no mail; the insert is
    not undone: no further call is made on the platform. *)
Theorem export_rejection_keeps_insert
    (workbookId : string) (w w1 w2 w3 w4 : W) (email password : jsval)
    (data : workbook) (inv ord : sheet) (rest : list sheet)
    (items : list item) (lines : list (gmap string cell)) (e : exn) :
  secret_answer w "email" = Ok email ->
  secret_answer w "password" = Ok password ->
  workbooks_get workbookId w = (Ok data, w1) ->
  sheets data = inv :: ord :: rest ->
  records_get (id inv) w1 = (Ok items, w2) ->
  purchaseInventory items = Ok lines ->
  records_insert (id ord) (List.filter positive_line lines) w2 = (Ok tt, w3) ->
  sheets_getRecordsAsCsv (id ord) w3 = (Throw e, w4) ->
  job_completed workbookId (w, [])
  = (Throw e,
     (w4,
      [ Secrets "email"; Secrets "password"; WorkbooksGet workbookId;
        RecordsGet (id inv);
        RecordsInsert (id ord) (List.filter positive_line lines);
        GetRecordsAsCsv (id ord) ])).
Proof.
  intros Hemail Hpass Hbook Hsheets Hrecords Hlines Hinsert Hcsv.
  open_handler. rewrite Hemail. step. rewrite Hpass. step. rewrite Hbook. step.
  rewrite Hsheets. cbn [nth_error]. step. rewrite Hrecords. step.
  rewrite Hlines. step. rewrite (purchaseOrder_filter items lines Hlines). step.
  rewrite Hinsert. step. now rewrite Hcsv.
Qed.

End Rejections.

(** Witness for X13, on a world whose order sheet has no table. *)
Lemma insert_rejection_stops_run_witness :
  job_completed (E:=Sample.engine) (P:=Sample.platform) "wb" (Scenario.no_orders_world, [])
  = (Throw (Rejected "records.insert"),
     (Scenario.no_orders_world,
      [ Secrets "email"; Secrets "password"; WorkbooksGet "wb"; RecordsGet "inventory";
        RecordsInsert "orders"
          (List.filter (positive_line (E:=Sample.engine)) Sample.inventory_lines) ])).
Proof.
  apply (insert_rejection_stops_run (E:=Sample.engine) (P:=Sample.platform)
           "wb" Scenario.no_orders_world Scenario.no_orders_world Scenario.no_orders_world
           Scenario.no_orders_world
           (JStr (lit "shop@books.com")) (JStr (lit "hunter2"))
           Sample.the_workbook {| id := "inventory" |} {| id := "orders" |} []
           Sample.inventory Sample.inventory_lines);
    reflexivity.
Defined.

(** Witness for X14, on the sample world with the CSV export down. *)
Lemma export_rejection_keeps_insert_witness :
  exists w4 : Sample.world,
    job_completed (E:=Sample.engine) (P:=Scenario.export_down) "wb" (Sample.good_world, [])
    = (Throw (Rejected "sheets.getRecordsAsCsv"),
       (w4,
        [ Secrets "email"; Secrets "password"; WorkbooksGet "wb"; RecordsGet "inventory";
          RecordsInsert "orders"
            (List.filter (positive_line (E:=Sample.engine)) Sample.inventory_lines);
          GetRecordsAsCsv "orders" ])).
Proof.
  eexists.
  eapply (export_rejection_keeps_insert (E:=Sample.engine) (P:=Scenario.export_down)
            "wb" Sample.good_world Sample.good_world Sample.good_world _ _
            (JStr (lit "shop@books.com")) (JStr (lit "hunter2"))
            Sample.the_workbook {| id := "inventory" |} {| id := "orders" |} []
            Sample.inventory Sample.inventory_lines);
    reflexivity.
Defined.
